(** * CR2UX: synchronising Application custom resources into the VelaUX store

    A shallow embedding of [pkg/server/event/sync/cr2ux.go].  The receiver
    [c *CR2UX] becomes an explicit state, every call that leaves the file
    (the datastore, the revision cache, the logger, the conversion routine,
    the [Store*] helpers and the services) is a [Call] that is executed
    against that state and recorded, with its answer, in a trace. *)

From Stdlib Require Import Ascii.
From stdpp Require Import gmap strings list.

Local Open Scope string_scope.
Local Open Scope list_scope.

(** ** Go values *)

(** A non-nil value of Go's [error] interface.  A nilable [error] is an
    [option error]. *)
Inductive error : Type :=
| ErrRecordNotExist            (* datastore.ErrRecordNotExist *)
| Errorf (msg : string).       (* fmt.Errorf(...) and every other error *)

(** Outcome of a call that fills a value in or fails. *)
Inductive result (A : Type) : Type :=
| Ok (a : A)
| Fail (e : error).
Arguments Ok {A} a.
Arguments Fail {A} e.

(** Indexing a Go [map[string]string]: the zero value when the key is absent. *)
Definition index (m : gmap string string) (k : string) : string :=
  default EmptyString (m !! k).

(** Indexing a map that may be nil: a nil map reads as empty. *)
Definition index_nilable (m : option (gmap string string)) (k : string) : string :=
  match m with
  | Some m => index m k
  | None => EmptyString
  end.

(** ** Package [strings] *)
Module gostrings.

Fixpoint HasPrefix (s pre : string) : bool :=
  match pre, s with
  | EmptyString, _ => true
  | String p pre', String a s' => if Ascii.eqb a p then HasPrefix s' pre' else false
  | String _ _, EmptyString => false
  end.

(** [go old new s n skip]: drop [skip] bytes (the rest of a match), then
    replace the next [n] non-overlapping occurrences of [old]. *)
Fixpoint go (old new : string) (s : string) (n skip : nat) {struct s} : string :=
  match skip, s with
  | S k, String _ s' => go old new s' n k
  | S _, EmptyString => EmptyString
  | O, EmptyString => EmptyString
  | O, String a s' =>
      match n with
      | O => s
      | S n' =>
          if HasPrefix s old
          then new +:+ go old new s' n' (String.length old - 1)
          else String a (go old new s' n 0)
      end
  end.

(** [strings.Replace(s, old, new, n)] for a non-empty [old]: the first [n]
    occurrences are replaced, all of them when [n < 0]. *)
Definition Replace (s old new : string) (n : Z) : string :=
  if decide (old = new) then s
  else go old new s (if (n <? 0)%Z then String.length s else Z.to_nat n) 0.

End gostrings.

(** ** Package [model]: the persisted records *)
Module model.

Definition LabelSyncNamespace : string := "ux.oam.dev/from-namespace".

(** [model.Application]; [Name] is the primary key. *)
Record Application : Type := {
  Name : string;
  Alias : string;
  Labels : gmap string string;
}.

Record Project : Type := { ProjectName : string }.
Record Target : Type := { TargetName : string }.
Record Env : Type := { EnvName : string }.
Record EnvBinding : Type := { EnvBindingName : string }.
Record ApplicationComponent : Type := { ComponentName : string }.
Record ApplicationPolicy : Type := { PolicyName : string }.
Record Workflow : Type := { WorkflowName : string }.
Record WorkflowRecord : Type := { RecordName : string }.
Record ApplicationRevision : Type := { Version : string; RevisionCRName : string }.

End model.

(** ** Package [oam] and the live resource *)
Module oam.
Definition AnnotationAppName : string := "app.oam.dev/appName".
Definition AnnotationPublishVersion : string := "app.oam.dev/publishVersion".
End oam.

Module v1beta1.

Record WorkflowStatus : Type := { AppRevision : string }.

Record AppStatus : Type := { Workflow : option WorkflowStatus }.

(** [v1beta1.Application], the custom resource.  [Annotations] and
    [Labels] may be nil. *)
Record Application : Type := {
  Name : string;
  Namespace : string;
  Annotations : option (gmap string string);
  Labels : option (gmap string string);
  Status : AppStatus;
}.

End v1beta1.

(** [oam.GetPublishVersion]: the publish-version annotation, empty when the
    annotations are nil or the key is absent. *)
Definition GetPublishVersion (o : v1beta1.Application) : string :=
  match v1beta1.Annotations o with
  | Some annotations => index annotations oam.AnnotationPublishVersion
  | None => EmptyString
  end.

(** The bundle [ConvertApp2DatastoreApp] produces. *)
Record DataStoreApp : Type := {
  AppMeta : model.Application;
  Project : option model.Project;
  Targets : list model.Target;
  Env : option model.Env;
  Eb : option model.EnvBinding;
  Comps : list model.ApplicationComponent;
  Policies : list model.ApplicationPolicy;
  Workflow : option model.Workflow;
  Revision : option model.ApplicationRevision;
  Record_ : option model.WorkflowRecord;
}.

(** ** The datastore *)
Module datastore.

(** Modelled from the spec: the store (package [datastore] is not part of
    the sources at hand) is [get], [put] and [delete] by primary key, and
    each call answers with the record, with a missing-record error, or with
    any other error.  Its state is the application table and, for every
    key, the error a [Get] or a [Delete] of that key runs into, if any; a
    collaborator may change all three. *)
Record DataStore : Type := {
  rows : gmap string model.Application;
  getFails : string -> option error;
  deleteFails : string -> option error;
}.

(** Modelled from the spec: [Get] by primary key.  It answers with the
    store's own error when the read fails, with [ErrRecordNotExist] when
    no row is stored, and otherwise fills the entity in from the stored row
    and leaves the key as it was asked. *)
Definition Get (ds : DataStore) (entity : model.Application) : result model.Application :=
  match getFails ds (model.Name entity) with
  | Some e => Fail e
  | None =>
      match rows ds !! model.Name entity with
      | Some row =>
          Ok {| model.Name := model.Name entity;
                model.Alias := model.Alias row;
                model.Labels := model.Labels row |}
      | None => Fail ErrRecordNotExist
      end
  end.

(** Modelled from the spec: [Delete] by primary key.  It answers with the
    store's own error when the delete fails and with [ErrRecordNotExist]
    when no row is stored, both without a change; otherwise it removes the
    row of that key and no other. *)
Definition Delete (ds : DataStore) (entity : model.Application) : option error * DataStore :=
  match deleteFails ds (model.Name entity) with
  | Some e => (Some e, ds)
  | None =>
      match rows ds !! model.Name entity with
      | Some _ =>
          (None, {| rows := delete (model.Name entity) (rows ds);
                    getFails := getFails ds;
                    deleteFails := deleteFails ds |})
      | None => (Some ErrRecordNotExist, ds)
      end
  end.

End datastore.

(** An entry of the revision cache. *)
Record cached : Type := { revision : string; targets : Z }.

(** ** The synchroniser's state and what it calls *)

(** The receiver [c *CR2UX]: the application table behind [c.ds], the
    revision cache, whether an application service is wired in, and the
    state [ext] that the collaborators keep for themselves (the other
    tables, the cluster). *)
Record CR2UX (Ext : Type) : Type := {
  ds : datastore.DataStore;
  cache : gmap string cached;
  applicationService : bool;
  ext : Ext;
}.
Arguments ds {Ext} c.
Arguments cache {Ext} c.
Arguments applicationService {Ext} c.
Arguments ext {Ext} c.

(** Calls into code that lies outside the file: the conversion routine, the
    [Store*] helpers of the package and the two services. *)
Inductive Collab : Type :=
| ConvertApp2DatastoreApp (targetApp : v1beta1.Application)
| StoreProject (project : model.Project)
| StoreTargets (dsApp : DataStoreApp)
| StoreEnv (dsApp : DataStoreApp)
| StoreEnvBinding (eb : option model.EnvBinding)
| StoreComponents (appPrimaryKey : string) (comps : list model.ApplicationComponent)
| StorePolicy (appPrimaryKey : string) (policies : list model.ApplicationPolicy)
| StoreWorkflow (dsApp : DataStoreApp)
| StoreApplicationRevision (dsApp : DataStoreApp)
| StoreWorkflowRecord (dsApp : DataStoreApp)
| StoreAppMeta (dsApp : DataStoreApp)
| SyncWorkflowRecord (appKey recordName : string) (app : v1beta1.Application)
| DeleteApplication (app : option model.Application).

Inductive Level : Type := Info | Warning | Error | ErrorS.

(** An argument handed to a [klog] format. *)
Inductive Arg : Type :=
| AStr (s : string)
| AErr (e : error).

Inductive Call : Type :=
| ds_Get (entity : model.Application)
| ds_Delete (entity : model.Application)
| syncCache (key revision : string) (targets : Z)
| shouldSyncMetaFromCLI (targetApp : v1beta1.Application) (del : bool)
| klog (lvl : Level) (format : string) (args : list Arg)
| collab (c : Collab).
Coercion collab : Collab >-> Call.

Definition collab_resp (c : Collab) : Type :=
  match c with
  | ConvertApp2DatastoreApp _ => result DataStoreApp
  | _ => option error
  end.

Definition resp (c : Call) : Type :=
  match c with
  | ds_Get _ => result model.Application
  | ds_Delete _ => option error
  | syncCache _ _ _ => unit
  | shouldSyncMetaFromCLI _ _ => bool
  | klog _ _ _ => unit
  | collab c => collab_resp c
  end.

(** What a call answered, as the trace keeps it. *)
Inductive Answer : Type :=
| Done
| Said (b : bool)
| Returned (err : option error)
| Got (r : result model.Application)
| Converted (r : result DataStoreApp).

Definition answer (c : Call) : resp c -> Answer :=
  match c as c0 return resp c0 -> Answer with
  | ds_Get _ => Got
  | ds_Delete _ => Returned
  | syncCache _ _ _ => fun _ => Done
  | shouldSyncMetaFromCLI _ _ => Said
  | klog _ _ _ => fun _ => Done
  | collab (ConvertApp2DatastoreApp _) => Converted
  | collab (StoreProject _) => Returned
  | collab (StoreTargets _) => Returned
  | collab (StoreEnv _) => Returned
  | collab (StoreEnvBinding _) => Returned
  | collab (StoreComponents _ _) => Returned
  | collab (StorePolicy _ _) => Returned
  | collab (StoreWorkflow _) => Returned
  | collab (StoreApplicationRevision _) => Returned
  | collab (StoreWorkflowRecord _) => Returned
  | collab (StoreAppMeta _) => Returned
  | collab (SyncWorkflowRecord _ _ _) => Returned
  | collab (DeleteApplication _) => Returned
  end.

(** One entry of the trace: a call and what it answered. *)
Definition Event : Type := Call * Answer.
Definition ev (c : Call) (r : resp c) : Event := (c, answer c r).

(** What the file takes from the rest of the package and from its
    collaborators.  The classifiers and [getSyncedRevision] are functions of
    their argument; [shouldSyncMetaFromCLI] reads the synchroniser's state;
    a collaborator may answer anything and may rewrite the application table
    and its own state, it has no handle on the revision cache and takes the
    conversion bundle as a value. *)
Record Outside : Type := {
  Ext : Type;
  appFromUX : v1beta1.Application -> bool;
  appFromCLI : v1beta1.Application -> bool;
  getSyncedRevision : option model.ApplicationRevision -> string;
  needsSync : CR2UX Ext -> v1beta1.Application -> bool -> bool;
  serve : forall c : Collab,
      datastore.DataStore -> Ext -> collab_resp c * datastore.DataStore * Ext;
}.

Section Sync.

Context (O : Outside).

Definition State : Type := CR2UX (Ext O).

(** Modelled from the spec: [syncCache] is the cache's
    [put(key, revision, targetCount)], the entry of [key] is overwritten. *)
Definition put (key rev : string) (n : Z) (c : State) : State :=
  {| ds := ds c;
     cache := <[key := {| revision := rev; targets := n |}]> (cache c);
     applicationService := applicationService c;
     ext := ext c |}.

(** The effect of one call on the state, and its answer. *)
Definition exec (k : Call) (c : State) : resp k * State :=
  match k as k0 return resp k0 * State with
  | ds_Get entity => (datastore.Get (ds c) entity, c)
  | ds_Delete entity =>
      let '(err, ds') := datastore.Delete (ds c) entity in
      (err, {| ds := ds'; cache := cache c;
               applicationService := applicationService c; ext := ext c |})
  | syncCache key rev n => (tt, put key rev n c)
  | shouldSyncMetaFromCLI targetApp del => (needsSync O c targetApp del, c)
  | klog _ _ _ => (tt, c)
  | collab k =>
      let '(r, ds', ext') := serve O k (ds c) (ext c) in
      (r, {| ds := ds'; cache := cache c;
             applicationService := applicationService c; ext := ext' |})
  end.

(** A computation over the state that records the calls it makes. *)
Definition M (A : Type) : Type := State -> A * State * list Event.

Definition ret {A} (a : A) : M A := fun c => (a, c, []).

Definition bind {A B} (m : M A) (f : A -> M B) : M B :=
  fun c =>
    let '(a, c1, t1) := m c in
    let '(b, c2, t2) := f a c1 in
    (b, c2, t1 ++ t2).

Definition call (k : Call) : M (resp k) :=
  fun c => let '(r, c') := exec k c in (r, c', [ev k r]).

Definition get : M State := fun c => (c, c, []).

End Sync.

Arguments ret {O A} a.
Arguments bind {O A B} m f.
Arguments call {O} k.
Arguments get {O}.

Notation "x <- m ;; k" := (bind m (fun x => k))
  (at level 100, m at next level, right associativity).
Notation "'do' m ;; k" := (bind m (fun _ => k))
  (at level 100, m at next level, right associativity).

(** The value, final state and trace of a run. *)
Definition value {O A} (r : A * State O * list Event) : A := r.1.1.
Definition final {O A} (r : A * State O * list Event) : State O := r.1.2.
Definition trace {O A} (r : A * State O * list Event) : list Event := r.2.

(** ** The file's functions *)

(** [&model.Application{Name: key}]: the entity a probe or a delete is
    keyed with, every other field at its zero value. *)
Definition keyed (key : string) : model.Application :=
  {| model.Name := key; model.Alias := EmptyString; model.Labels := ∅ |}.

Section Functions.

Context {O : Outside}.

(** [if err = step; err != nil { log; return err }]: the value is the
    error the enclosing function returns, [None] when it goes on. *)
Definition check (step : M O (option error)) (log : error -> Call)
  : M O (option error) :=
  err <- step ;;
  match err with
  | Some e => do call (log e) ;; ret (Some e)
  | None => ret None
  end.

(** Statements in sequence: the rest runs unless the block returned. *)
Definition andThen (block rest : M O (option error)) : M O (option error) :=
  returned <- block ;;
  match returned with
  | Some e => ret (Some e)
  | None => rest
  end.

Infix ">>" := andThen (at level 90, right associativity).

Definition formatAppComposedName (name namespace : string) : string :=
  name +:+ "-" +:+ namespace.

(** getApp will return the app and appname if exists *)
Definition getApp (name namespace : string)
  : M O (option model.Application * string * option error) :=
  let alreadyCreated := keyed (formatAppComposedName name namespace) in
  r1 <- call (ds_Get alreadyCreated) ;;
  match r1 with
  | Ok alreadyCreated => ret (Some alreadyCreated, model.Name alreadyCreated, None)
  | Fail err1 =>
      (* check if it's created the first in database *)
      let existApp := keyed name in
      r2 <- call (ds_Get existApp) ;;
      match r2 with
      | Ok existApp =>
          let en := index (model.Labels existApp) model.LabelSyncNamespace in
          if decide (en ≠ namespace)
          then ret (None, formatAppComposedName name namespace, Some err1)
          else ret (Some existApp, name, None)
      | Fail err2 => ret (None, name, Some err2)
      end
  end.

Definition getAppMetaName (name namespace : string) : M O string :=
  found <- getApp name namespace ;;
  let '(_, appName, _) := found in
  ret appName.

Definition syncAppCreatedByUX (targetApp : v1beta1.Application) : M O (option error) :=
  let appPrimaryKey :=
    index_nilable (v1beta1.Annotations targetApp) oam.AnnotationAppName in
  if decide (appPrimaryKey = EmptyString)
  then ret (Some (Errorf ("appName is empty in application " +:+ v1beta1.Name targetApp)))
  else
    do (if decide (v1beta1.Annotations targetApp = None
                   ∨ index_nilable (v1beta1.Annotations targetApp)
                       oam.AnnotationPublishVersion = EmptyString)
        then call (klog Warning
                     "app %s/%s has no publish version, skip sync workflow status"
                     [AStr (v1beta1.Namespace targetApp); AStr (v1beta1.Name targetApp)])
        else ret tt) ;;
    let recordName :=
      index_nilable (v1beta1.Annotations targetApp) oam.AnnotationPublishVersion in
    err <- call (SyncWorkflowRecord appPrimaryKey recordName targetApp) ;;
    match err with
    | Some e =>
        do call (klog ErrorS "failed to sync workflow status"
                   [AErr e; AStr "oam app name"; AStr (v1beta1.Name targetApp);
                    AStr "workflow name"; AStr (GetPublishVersion targetApp);
                    AStr "record name"; AStr recordName]) ;;
        ret (Some e)
    | None => ret None
    end.

Definition syncAppCreatedByCLI (targetApp : v1beta1.Application) : M O (option error) :=
  should <- call (shouldSyncMetaFromCLI targetApp false) ;;
  (if should then
     conv <- call (ConvertApp2DatastoreApp targetApp) ;;
     match conv with
     | Fail err =>
         do call (klog Error "Convert App to data store err %v" [AErr err]) ;;
         ret (Some err)
     | Ok dsApp =>
         match Project dsApp with
         | Some project =>
             check (call (StoreProject project))
               (fun err => klog Error "get or create project for sync process err %v" [AErr err])
         | None => ret None
         end >>
         check (call (StoreTargets dsApp))
           (fun err => klog Error "Store targets to data store err %v" [AErr err]) >>
         check (call (StoreEnv dsApp))
           (fun err => klog Error "Store Env Metadata to data store err %v" [AErr err]) >>
         check (call (StoreEnvBinding (Eb dsApp)))
           (fun err => klog Error "Store EnvBinding Metadata to data store err %v" [AErr err]) >>
         check (call (StoreComponents (model.Name (AppMeta dsApp)) (Comps dsApp)))
           (fun err => klog Error "Store Components Metadata to data store err %v" [AErr err]) >>
         check (call (StorePolicy (model.Name (AppMeta dsApp)) (Policies dsApp)))
           (fun err => klog Error "Store Policy Metadata to data store err %v" [AErr err]) >>
         check (call (StoreWorkflow dsApp))
           (fun err => klog Error "Store Workflow Metadata to data store err %v" [AErr err]) >>
         check (call (StoreApplicationRevision dsApp))
           (fun err => klog Error "Store application revision to data store err %v" [AErr err]) >>
         check (call (StoreWorkflowRecord dsApp))
           (fun err => klog Error "Store Workflow Record to data store err %v" [AErr err]) >>
         check (call (StoreAppMeta dsApp))
           (fun err => klog Error "Store App Metadata to data store err %v" [AErr err]) >>
         (* update cache *)
         let key := formatAppComposedName (v1beta1.Name targetApp)
                      (v1beta1.Namespace targetApp) in
         let syncedVersion := getSyncedRevision O (Revision dsApp) in
         do call (syncCache key syncedVersion (Z.of_nat (length (Targets dsApp)))) ;;
         do call (klog Info "application %s/%s revision %s synced successful"
                    [AStr (v1beta1.Name targetApp); AStr (v1beta1.Namespace targetApp);
                     AStr syncedVersion]) ;;
         ret None
     end
   else ret None) >>
  (let recordName := GetPublishVersion targetApp in
   recordName <-
     (if decide (recordName = EmptyString)
      then
        match v1beta1.Workflow (v1beta1.Status targetApp) with
        | Some workflow =>
            ret (gostrings.Replace (v1beta1.AppRevision workflow) ":" "-" 1)
        | None =>
            do call (klog Warning
                       "app %s/%s has no publish version or revision in status, skip sync workflow status"
                       [AStr (v1beta1.Namespace targetApp); AStr (v1beta1.Name targetApp)]) ;;
            ret recordName
        end
      else ret recordName) ;;
   appName <- getAppMetaName (v1beta1.Name targetApp) (v1beta1.Namespace targetApp) ;;
   call (SyncWorkflowRecord appName recordName targetApp)).

(** AddOrUpdate will sync application CR to storage of VelaUX automatically *)
Definition AddOrUpdate (targetApp : v1beta1.Application) : M O (option error) :=
  if appFromUX O targetApp then syncAppCreatedByUX targetApp
  else if appFromCLI O targetApp then syncAppCreatedByCLI targetApp
  else
    do call (klog Info "skip syncing application %s/%s"
               [AStr (v1beta1.Name targetApp); AStr (v1beta1.Namespace targetApp)]) ;;
    ret None.

(** DeleteApp will delete the application as the CR was deleted *)
Definition DeleteApp (targetApp : v1beta1.Application) : M O (option error) :=
  skip <-
    (if negb (appFromCLI O targetApp)
     then should <- call (shouldSyncMetaFromCLI targetApp true) ;; ret (negb should)
     else ret false) ;;
  if skip then ret None
  else
    found <- getApp (v1beta1.Name targetApp) (v1beta1.Namespace targetApp) ;;
    let '(app, appName, err) := found in
    match err with
    | Some e => ret (Some e)
    | None =>
        c <- get ;;
        (* Only for the unit test scenario *)
        if negb (applicationService c)
        then call (ds_Delete (keyed appName))
        else call (DeleteApplication app)
    end.

End Functions.

(** ** Vocabulary of the properties *)

(** The status revision marker with its first colon turned into a hyphen,
    as the specification words the fallback record name. *)
Fixpoint replaceFirstColon (s : string) : string :=
  match s with
  | EmptyString => EmptyString
  | String a s' =>
      if Ascii.eqb a ":"%char then String "-"%char s' else String a (replaceFirstColon s')
  end.

(** The pipeline steps that follow the components step, and the cache update. *)
Definition afterComponents (k : Call) : bool :=
  match k with
  | collab (StorePolicy _ _)
  | collab (StoreWorkflow _)
  | collab (StoreApplicationRevision _)
  | collab (StoreWorkflowRecord _)
  | collab (StoreAppMeta _)
  | syncCache _ _ _ => true
  | _ => false
  end.

Definition isStoreProject (k : Call) : bool :=
  match k with
  | collab (StoreProject _) => true
  | _ => false
  end.

Definition isSyncWorkflowRecord (k : Call) : bool :=
  match k with
  | collab (SyncWorkflowRecord _ _ _) => true
  | _ => false
  end.

Definition isGet (k : Call) : bool :=
  match k with
  | ds_Get _ => true
  | _ => false
  end.

(** A call that writes the store or reaches a collaborator; reads of the
    store, the classifier and the logger are not. *)
Definition writesOrCollaborates (k : Call) : bool :=
  match k with
  | ds_Delete _ | syncCache _ _ _ | collab _ => true
  | ds_Get _ | shouldSyncMetaFromCLI _ _ | klog _ _ _ => false
  end.

(** What [Get] hands back for the row stored under [key]. *)
Definition fetched (key : string) (row : model.Application) : model.Application :=
  {| model.Name := key; model.Alias := model.Alias row; model.Labels := model.Labels row |}.

(** The warning of the CLI path when neither a publish version nor a
    revision marker is there. *)
Definition skipWarning (targetApp : v1beta1.Application) : Call :=
  klog Warning
    "app %s/%s has no publish version or revision in status, skip sync workflow status"
    [AStr (v1beta1.Namespace targetApp); AStr (v1beta1.Name targetApp)].

(** The ten store steps of the persistence pipeline. *)
Definition isStep (k : Call) : bool :=
  match k with
  | collab (StoreProject _)
  | collab (StoreTargets _)
  | collab (StoreEnv _)
  | collab (StoreEnvBinding _)
  | collab (StoreComponents _ _)
  | collab (StorePolicy _ _)
  | collab (StoreWorkflow _)
  | collab (StoreApplicationRevision _)
  | collab (StoreWorkflowRecord _)
  | collab (StoreAppMeta _) => true
  | _ => false
  end.

(** A call that removes a record, directly or through the application service. *)
Definition isDelete (k : Call) : bool :=
  match k with
  | ds_Delete _ | collab (DeleteApplication _) => true
  | _ => false
  end.

Definition isKlog (k : Call) : bool :=
  match k with
  | klog _ _ _ => true
  | _ => false
  end.

Definition isSyncCache (k : Call) : bool :=
  match k with
  | syncCache _ _ _ => true
  | _ => false
  end.

(** The store steps of a trace, in the order they were called. *)
Definition stepsOf (t : list Event) : list Call :=
  map fst (List.filter (λ e, isStep e.1) t).

(** The order in which the source lists the store steps for a bundle. *)
Definition pipelineOrder (dsApp : DataStoreApp) : list Call :=
  match Project dsApp with
  | Some project => [collab (StoreProject project)]
  | None => []
  end ++
  [collab (StoreTargets dsApp);
   collab (StoreEnv dsApp);
   collab (StoreEnvBinding (Eb dsApp));
   collab (StoreComponents (model.Name (AppMeta dsApp)) (Comps dsApp));
   collab (StorePolicy (model.Name (AppMeta dsApp)) (Policies dsApp));
   collab (StoreWorkflow dsApp);
   collab (StoreApplicationRevision dsApp);
   collab (StoreWorkflowRecord dsApp);
   collab (StoreAppMeta dsApp)].

(** A string without colon. *)
Fixpoint colonFree (s : string) : bool :=
  match s with
  | EmptyString => true
  | String a s' => negb (Ascii.eqb a ":"%char) && colonFree s'
  end.

(** The state with another store. *)
Definition withStore {Ext : Type} (c : CR2UX Ext) (store : datastore.DataStore) : CR2UX Ext :=
  {| ds := store; cache := cache c;
     applicationService := applicationService c; ext := ext c |}.

(** A store that reads and deletes without failure. *)
Definition reliable (table : gmap string model.Application) : datastore.DataStore :=
  {| datastore.rows := table;
     datastore.getFails := fun _ => None;
     datastore.deleteFails := fun _ => None |}.

(** The store with another application table and its failures as they were. *)
Definition withRows (store : datastore.DataStore) (table : gmap string model.Application)
  : datastore.DataStore :=
  {| datastore.rows := table;
     datastore.getFails := datastore.getFails store;
     datastore.deleteFails := datastore.deleteFails store |}.

(** The error a probe of a key without row answers: the store's own when the
    read fails, else the missing-record error. *)
Definition absentError (store : datastore.DataStore) (key : string) : error :=
  default ErrRecordNotExist (datastore.getFails store key).

(** The record name the CLI path settles on: the publish version, else the
    status revision marker with its first colon turned into a hyphen, else
    empty. *)
Definition recordNameOf (targetApp : v1beta1.Application) : string :=
  if decide (GetPublishVersion targetApp = EmptyString)
  then match v1beta1.Workflow (v1beta1.Status targetApp) with
       | Some workflow => replaceFirstColon (v1beta1.AppRevision workflow)
       | None => EmptyString
       end
  else GetPublishVersion targetApp.

(** The cache entry a successful sync of a bundle writes. *)
Definition entryOf (O : Outside) (dsApp : DataStoreApp) : cached :=
  {| revision := getSyncedRevision O (Revision dsApp);
     targets := Z.of_nat (length (Targets dsApp)) |}.

(** ** Concrete surroundings, for running the functions *)
Module Fixture.

(** Collaborators that answer from a script and leave the store alone. *)
Definition scripted (ux cli : v1beta1.Application -> bool) (due : bool)
  (reply : forall c : Collab, collab_resp c) : Outside :=
  {| Ext := unit;
     appFromUX := ux;
     appFromCLI := cli;
     getSyncedRevision :=
       fun r => match r with
                | Some r => model.RevisionCRName r
                | None => EmptyString
                end;
     needsSync := fun _ _ _ => due;
     serve := fun c ds e => (reply c, ds, e) |}.

Definition never (_ : v1beta1.Application) : bool := false.
Definition always (_ : v1beta1.Application) : bool := true.

Definition bundle : DataStoreApp :=
  {| AppMeta := {| model.Name := "web"; model.Alias := EmptyString;
                   model.Labels := {[ model.LabelSyncNamespace := "prod" ]} |};
     Project := None;
     Targets := [ {| model.TargetName := "local" |}; {| model.TargetName := "edge" |} ];
     Env := Some {| model.EnvName := "prod" |};
     Eb := None;
     Comps := [ {| model.ComponentName := "server" |} ];
     Policies := [];
     Workflow := None;
     Revision := Some {| model.Version := "1"; model.RevisionCRName := "web-v1" |};
     Record_ := None |}.

Definition allOk (c : Collab) : collab_resp c :=
  match c with
  | ConvertApp2DatastoreApp _ => Ok bundle
  | _ => None
  end.

Definition componentsFail (c : Collab) : collab_resp c :=
  match c with
  | ConvertApp2DatastoreApp _ => Ok bundle
  | StoreComponents _ _ => Some (Errorf "components: store unavailable")
  | _ => None
  end.

Definition cliDue : Outside := scripted never always true allOk.
Definition cliIdle : Outside := scripted never always false allOk.
Definition cliBroken : Outside := scripted never always true componentsFail.
Definition console : Outside := scripted always never false allOk.
Definition stranger : Outside := scripted never never false allOk.

(** "web" in namespace "prod", with a revision marker and no annotation. *)
Definition web : v1beta1.Application :=
  {| v1beta1.Name := "web"; v1beta1.Namespace := "prod";
     v1beta1.Annotations := None; v1beta1.Labels := None;
     v1beta1.Status :=
       {| v1beta1.Workflow := Some {| v1beta1.AppRevision := "web-v1:8f2c:1" |} |} |}.

(** The same resource before any workflow ran. *)
Definition fresh : v1beta1.Application :=
  {| v1beta1.Name := "web"; v1beta1.Namespace := "prod";
     v1beta1.Annotations := Some ∅; v1beta1.Labels := None;
     v1beta1.Status := {| v1beta1.Workflow := None |} |}.

Definition rowOf (key ns : string) : model.Application :=
  {| model.Name := key; model.Alias := EmptyString;
     model.Labels := {[ model.LabelSyncNamespace := ns ]} |}.

Definition empty : CR2UX unit :=
  {| ds := reliable ∅; cache := ∅; applicationService := false; ext := tt |}.

(** "X" is owned by "ns-a". *)
Definition taken : CR2UX unit :=
  {| ds := reliable ({[ "X" := rowOf "X" "ns-a" ]});
     cache := ∅; applicationService := false; ext := tt |}.

(** "X" is owned by "ns-a", and "ns-b" already has its composed record. *)
Definition both : CR2UX unit :=
  {| ds := reliable (<[ "X-ns-b" := rowOf "X-ns-b" "ns-b" ]> {[ "X" := rowOf "X" "ns-a" ]});
     cache := ∅; applicationService := false; ext := tt |}.

(** "web" is owned by "staging", "prod" has the composed record. *)
Definition shared : CR2UX unit :=
  {| ds := reliable (<[ "web-prod" := rowOf "web-prod" "prod" ]> {[ "web" := rowOf "web" "staging" ]});
     cache := ∅; applicationService := false; ext := tt |}.

(** The conversion fails. *)
Definition unconvertible (c : Collab) : collab_resp c :=
  match c with
  | ConvertApp2DatastoreApp _ => Fail (Errorf "convert: bad spec")
  | _ => None
  end.

Definition cliUnconvertible : Outside := scripted never always true unconvertible.

(** "web" as the console made it: application name and publish version set. *)
Definition consoleApp : v1beta1.Application :=
  {| v1beta1.Name := "web"; v1beta1.Namespace := "prod";
     v1beta1.Annotations :=
       Some (<[ oam.AnnotationPublishVersion := "v2" ]> {[ oam.AnnotationAppName := "web" ]});
     v1beta1.Labels := None;
     v1beta1.Status := {| v1beta1.Workflow := None |} |}.

(** "web" is owned by "prod" under its bare name. *)
Definition owned : CR2UX unit :=
  {| ds := reliable ({[ "web" := rowOf "web" "prod" ]});
     cache := ∅; applicationService := false; ext := tt |}.

(** One record under "a-b-c". *)
Definition hyphen : CR2UX unit :=
  {| ds := reliable ({[ "a-b-c" := rowOf "a-b-c" "c" ]});
     cache := ∅; applicationService := false; ext := tt |}.

(** As [shared], with an application service wired in. *)
Definition sharedWired : CR2UX unit :=
  {| ds := reliable (<[ "web-prod" := rowOf "web-prod" "prod" ]> {[ "web" := rowOf "web" "staging" ]});
     cache := ∅; applicationService := true; ext := tt |}.

(** "web" of "prod" is stored twice, under the bare name and under the
    composed key; the store fails to read the composed key. *)
Definition flaky : CR2UX unit :=
  {| ds := {| datastore.rows :=
                <[ "web-prod" := rowOf "web-prod" "prod" ]> {[ "web" := rowOf "web" "prod" ]};
              datastore.getFails :=
                fun key => if decide (key = "web-prod")
                           then Some (Errorf "store: timeout") else None;
              datastore.deleteFails := fun _ => None |};
     cache := ∅; applicationService := false; ext := tt |}.

(** "X" is owned by "ns-a"; the store fails to read it. *)
Definition unreadable : CR2UX unit :=
  {| ds := {| datastore.rows := {[ "X" := rowOf "X" "ns-a" ]};
              datastore.getFails :=
                fun key => if decide (key = "X")
                           then Some (Errorf "store: timeout") else None;
              datastore.deleteFails := fun _ => None |};
     cache := ∅; applicationService := false; ext := tt |}.

End Fixture.

(** ** Facts about the helpers *)

Lemma length_append (s1 s2 : string) :
  String.length (s1 +:+ s2) = String.length s1 + String.length s2.
Proof. induction s1 as [|a s1 IH]; simpl; [reflexivity | now rewrite IH]. Qed.

(** The composed key is never the bare name: it is longer. *)
Lemma composed_not_bare (name namespace : string) :
  formatAppComposedName name namespace ≠ name.
Proof.
  intros E. apply (f_equal String.length) in E.
  unfold formatAppComposedName in E. rewrite !length_append in E.
  simpl in E. lia.
Qed.

(** A stored row that the store reads. *)
Lemma Get_found (ds : datastore.DataStore) (key : string) (row : model.Application) :
  datastore.rows ds !! key = Some row →
  datastore.getFails ds key = None →
  datastore.Get ds (keyed key) = Ok (fetched key row).
Proof. intros E F. unfold datastore.Get. simpl. now rewrite F, E. Qed.

(** A key without row. *)
Lemma Get_missing (ds : datastore.DataStore) (key : string) :
  datastore.rows ds !! key = None →
  datastore.Get ds (keyed key) = Fail (absentError ds key).
Proof.
  intros E. unfold datastore.Get, absentError. simpl.
  destruct (datastore.getFails ds key); [reflexivity | now rewrite E].
Qed.

(** A read that failed in the store. *)
Lemma Get_failed (ds : datastore.DataStore) (key : string) (e : error) :
  datastore.getFails ds key = Some e →
  datastore.Get ds (keyed key) = Fail e.
Proof. intros F. unfold datastore.Get. simpl. now rewrite F. Qed.

(** What a successful probe tells about the store. *)
Lemma Get_Ok_inv (ds : datastore.DataStore) (key : string) (a : model.Application) :
  datastore.Get ds (keyed key) = Ok a →
  ∃ row, datastore.rows ds !! key = Some row
         ∧ datastore.getFails ds key = None
         ∧ a = fetched key row.
Proof.
  unfold datastore.Get. simpl.
  destruct (datastore.getFails ds key); [discriminate|].
  destruct (datastore.rows ds !! key) as [row|]; [|discriminate].
  intros [= <-]. now exists row.
Qed.

(** [strings.Replace(s, ":", "-", 1)] is the spec's "first colon replaced by
    a hyphen". *)
Lemma Replace_first_colon (s : string) :
  gostrings.Replace s ":" "-" 1 = replaceFirstColon s.
Proof.
  unfold gostrings.Replace. simpl.
  induction s as [|a s IH]; simpl; [reflexivity|].
  destruct (Ascii.eqb a ":"%char); simpl.
  - destruct s; reflexivity.
  - now rewrite IH.
Qed.

Section Resolver.

Context {O : Outside}.
Implicit Types (c : State O) (name namespace : string).

Ltac run_getApp :=
  unfold getApp, bind, call, ret, exec, ev, answer; cbn.

(** What [getApp] does when the composed probe succeeds. *)
Lemma getApp_composed c name namespace a :
  datastore.Get (ds c) (keyed (formatAppComposedName name namespace)) = Ok a →
  getApp name namespace c =
    (Some a, model.Name a, None, c,
     [(ds_Get (keyed (formatAppComposedName name namespace)), Got (Ok a))]).
Proof. intros E. run_getApp. now rewrite E. Qed.

(** What [getApp] does when the composed probe fails and the bare one succeeds. *)
Lemma getApp_bare c name namespace e1 a :
  datastore.Get (ds c) (keyed (formatAppComposedName name namespace)) = Fail e1 →
  datastore.Get (ds c) (keyed name) = Ok a →
  getApp name namespace c =
    (if decide (index (model.Labels a) model.LabelSyncNamespace ≠ namespace)
     then (None, formatAppComposedName name namespace, Some e1)
     else (Some a, name, None),
     c,
     [(ds_Get (keyed (formatAppComposedName name namespace)), Got (Fail e1));
      (ds_Get (keyed name), Got (Ok a))]).
Proof.
  intros E1 E2. run_getApp. rewrite E1. cbn. rewrite E2. cbn.
  now destruct (decide _).
Qed.

(** What [getApp] does when both probes fail. *)
Lemma getApp_neither c name namespace e1 e2 :
  datastore.Get (ds c) (keyed (formatAppComposedName name namespace)) = Fail e1 →
  datastore.Get (ds c) (keyed name) = Fail e2 →
  getApp name namespace c =
    (None, name, Some e2, c,
     [(ds_Get (keyed (formatAppComposedName name namespace)), Got (Fail e1));
      (ds_Get (keyed name), Got (Fail e2))]).
Proof. intros E1 E2. run_getApp. rewrite E1. cbn. now rewrite E2. Qed.

(** C8. When the store holds a record under neither the composed key nor
    the bare name, [getApp] returns no record and the bare name as canonical
    key, with the error of the bare probe; it probes the two keys and leaves
    the state as it was.  Both probes fail, with the store's own error when
    the read fails and with the missing-record error otherwise; on a store
    that reads the two keys the errors are [ErrRecordNotExist]. *)
Theorem getApp_first_claim c name namespace :
  datastore.rows (ds c) !! formatAppComposedName name namespace = None →
  datastore.rows (ds c) !! name = None →
  getApp name namespace c =
    (None, name, Some (absentError (ds c) name), c,
     [(ds_Get (keyed (formatAppComposedName name namespace)),
       Got (Fail (absentError (ds c) (formatAppComposedName name namespace))));
      (ds_Get (keyed name), Got (Fail (absentError (ds c) name)))])
  ∧ (datastore.getFails (ds c) (formatAppComposedName name namespace) = None →
     datastore.getFails (ds c) name = None →
     getApp name namespace c =
       (None, name, Some ErrRecordNotExist, c,
        [(ds_Get (keyed (formatAppComposedName name namespace)), Got (Fail ErrRecordNotExist));
         (ds_Get (keyed name), Got (Fail ErrRecordNotExist))])).
Proof.
  intros E1 E2.
  pose proof (getApp_neither c name namespace _ _
                (Get_missing _ _ E1) (Get_missing _ _ E2)) as Hrun.
  split; [exact Hrun|].
  intros F1 F2. rewrite Hrun. unfold absentError. now rewrite F1, F2.
Qed.

(** C1, as amended.  The bare name [X] is held by namespace [nsa] and [nsb]
    differs from it.  When the probe of the composed key succeeds, [getApp
    X nsb] returns the record stored under the composed key, that key and a
    nil error.  When it fails (no such record, or a failing read) and the
    store reads the bare name, [getApp] returns no record, the composed key
    and the error of the composed probe, which is the missing-record error
    on a store that reads the composed key.  When the read of the bare
    name fails too, [getApp] returns no record, the bare name and that
    error.  The state is not touched. *)
Theorem getApp_name_taken c X nsa nsb row :
  datastore.rows (ds c) !! X = Some row →
  index (model.Labels row) model.LabelSyncNamespace = nsa →
  nsb ≠ nsa →
  (∀ row', datastore.rows (ds c) !! formatAppComposedName X nsb = Some row' →
     datastore.getFails (ds c) (formatAppComposedName X nsb) = None →
     value (getApp X nsb c)
     = (Some (fetched (formatAppComposedName X nsb) row'),
        formatAppComposedName X nsb, None))
  ∧ (∀ e1, datastore.Get (ds c) (keyed (formatAppComposedName X nsb)) = Fail e1 →
       datastore.getFails (ds c) X = None →
       value (getApp X nsb c) = (None, formatAppComposedName X nsb, Some e1))
  ∧ (datastore.rows (ds c) !! formatAppComposedName X nsb = None →
     datastore.getFails (ds c) (formatAppComposedName X nsb) = None →
     datastore.getFails (ds c) X = None →
     value (getApp X nsb c)
     = (None, formatAppComposedName X nsb, Some ErrRecordNotExist))
  ∧ (∀ e1 e2, datastore.Get (ds c) (keyed (formatAppComposedName X nsb)) = Fail e1 →
       datastore.getFails (ds c) X = Some e2 →
       value (getApp X nsb c) = (None, X, Some e2))
  ∧ final (getApp X nsb c) = c.
Proof.
  intros EX Ens Hne.
  assert (Hbare : ∀ e1,
             datastore.Get (ds c) (keyed (formatAppComposedName X nsb)) = Fail e1 →
             datastore.getFails (ds c) X = None →
             getApp X nsb c =
               (None, formatAppComposedName X nsb, Some e1, c,
                [(ds_Get (keyed (formatAppComposedName X nsb)), Got (Fail e1));
                 (ds_Get (keyed X), Got (Ok (fetched X row)))])).
  { intros e1 E1 F. rewrite (getApp_bare _ _ _ _ _ E1 (Get_found _ _ _ EX F)).
    destruct (decide _) as [_|Heq]; [reflexivity|].
    exfalso. apply Heq. cbn. congruence. }
  split; [|split; [|split; [|split]]].
  - intros row' E F. now rewrite (getApp_composed _ _ _ _ (Get_found _ _ _ E F)).
  - intros e1 E1 F. now rewrite (Hbare e1 E1 F).
  - intros E F1 F. rewrite (Hbare _ (Get_missing _ _ E) F).
    unfold value, absentError; cbn. now rewrite F1.
  - intros e1 e2 E1 F. now rewrite (getApp_neither _ _ _ _ _ E1 (Get_failed _ _ _ F)).
  - destruct (datastore.Get (ds c) (keyed (formatAppComposedName X nsb))) as [a|e1] eqn:E1.
    + now rewrite (getApp_composed _ _ _ _ E1).
    + destruct (datastore.Get (ds c) (keyed X)) as [a|e2] eqn:E2.
      * rewrite (getApp_bare _ _ _ _ _ E1 E2). now destruct (decide _).
      * now rewrite (getApp_neither _ _ _ _ _ E1 E2).
Qed.

End Resolver.

(** Witness of C8: nothing is stored yet. *)
Lemma getApp_first_claim_witness :
  getApp (O := Fixture.cliIdle) "web" "prod" Fixture.empty =
    (None, "web", Some ErrRecordNotExist, Fixture.empty,
     [(ds_Get (keyed "web-prod"), Got (Fail ErrRecordNotExist));
      (ds_Get (keyed "web"), Got (Fail ErrRecordNotExist))]).
Proof.
  exact (proj2 (getApp_first_claim (O := Fixture.cliIdle) Fixture.empty "web" "prod"
                  eq_refl eq_refl) eq_refl eq_refl).
Defined.

(** C1 as the specification states it fails once the composed record
    exists: "X" is held by "ns-a", "ns-b" differs, and [getApp "X" "ns-b"]
    returns the record stored under "X-ns-b" instead of no record. *)
Lemma getApp_name_taken_counterexample :
  datastore.rows (ds Fixture.both) !! "X" = Some (Fixture.rowOf "X" "ns-a")
  ∧ index (model.Labels (Fixture.rowOf "X" "ns-a")) model.LabelSyncNamespace = "ns-a"
  ∧ "ns-b" ≠ "ns-a"
  ∧ value (getApp (O := Fixture.cliIdle) "X" "ns-b" Fixture.both)
    = (Some (fetched "X-ns-b" (Fixture.rowOf "X-ns-b" "ns-b")), "X-ns-b", None)
  ∧ (value (getApp (O := Fixture.cliIdle) "X" "ns-b" Fixture.both)).1.1 ≠ None.
Proof.
  assert (E : datastore.Get (ds Fixture.both) (keyed (formatAppComposedName "X" "ns-b"))
              = Ok (fetched "X-ns-b" (Fixture.rowOf "X-ns-b" "ns-b"))) by reflexivity.
  rewrite (getApp_composed (O := Fixture.cliIdle) _ _ _ _ E).
  repeat split; try reflexivity; discriminate.
Qed.

(** Witness of the amended C1, on the store where only "X" of "ns-a" exists. *)
Lemma getApp_name_taken_witness :
  value (getApp (O := Fixture.cliIdle) "X" "ns-b" Fixture.taken)
  = (None, "X-ns-b", Some ErrRecordNotExist)
  ∧ final (getApp (O := Fixture.cliIdle) "X" "ns-b" Fixture.taken) = Fixture.taken.
Proof.
  destruct (getApp_name_taken (O := Fixture.cliIdle) Fixture.taken "X" "ns-a" "ns-b"
              (Fixture.rowOf "X" "ns-a") eq_refl eq_refl ltac:(discriminate))
    as (_ & _ & Hnone & _ & Hfinal).
  split; [exact (Hnone eq_refl eq_refl eq_refl) | exact Hfinal].
Defined.

Section Entry.

Context {O : Outside}.
Implicit Types (c : State O) (targetApp : v1beta1.Application).

(** The final state of [getApp] is the state it started from. *)
Lemma getApp_final c name namespace : final (getApp name namespace c) = c.
Proof.
  destruct (datastore.Get (ds c) (keyed (formatAppComposedName name namespace)))
    as [a|e1] eqn:E1.
  - now rewrite (getApp_composed _ _ _ _ E1).
  - destruct (datastore.Get (ds c) (keyed name)) as [a|e2] eqn:E2.
    + rewrite (getApp_bare _ _ _ _ _ E1 E2). now destruct (decide _).
    + now rewrite (getApp_neither _ _ _ _ _ E1 E2).
Qed.

(** [DeleteApp] once the gate is passed: the probes of [getApp], then either
    the error, or the delete. *)
Lemma DeleteApp_acting c targetApp :
  appFromCLI O targetApp = true ∨ needsSync O c targetApp true = true →
  let gate := if appFromCLI O targetApp then []
              else [(shouldSyncMetaFromCLI targetApp true, Said true)] in
  let found := getApp (v1beta1.Name targetApp) (v1beta1.Namespace targetApp) c in
  DeleteApp targetApp c =
    match value found with
    | (_, _, Some e) => (Some e, c, gate ++ trace found)
    | (app, appName, None) =>
        if applicationService c
        then
          let '(r, ds', ext') := serve O (DeleteApplication app) (ds c) (ext c) in
          (r, {| ds := ds'; cache := cache c;
                 applicationService := applicationService c; ext := ext' |},
           gate ++ trace found ++ [(collab (DeleteApplication app), Returned r)])
        else
          let '(r, ds') := datastore.Delete (ds c) (keyed appName) in
          (r, withStore c ds',
           gate ++ trace found ++ [(ds_Delete (keyed appName), Returned r)])
    end.
Proof.
  intros Hact gate found. subst gate found.
  destruct c as [store entries svc x].
  set (c := {| ds := store; cache := entries; applicationService := svc; ext := x |}) in *.
  assert (Hgate :
    (if negb (appFromCLI O targetApp)
     then should <- call (shouldSyncMetaFromCLI targetApp true) ;; ret (negb should)
     else ret false) c
    = (false, c, if appFromCLI O targetApp then []
                 else [(shouldSyncMetaFromCLI targetApp true, Said true)])).
  { destruct (appFromCLI O targetApp) eqn:Hcli; cbn; [reflexivity|].
    destruct Hact as [Hact|Hact]; [discriminate|].
    unfold bind, call, ret, exec, ev, answer; cbn. now rewrite Hact. }
  unfold DeleteApp. unfold bind at 1. rewrite Hgate. unfold bind at 1.
  pose proof (getApp_final c (v1beta1.Name targetApp) (v1beta1.Namespace targetApp)) as Hc.
  destruct (getApp (v1beta1.Name targetApp) (v1beta1.Namespace targetApp) c)
    as [[[[app appName] err] c'] probes].
  unfold final in Hc; cbn in Hc; subst c'.
  unfold value, trace; cbn [fst snd].
  destruct err as [e|]; [cbn; now rewrite app_nil_r|].
  unfold bind, get, call, ret, exec, ev, answer, withStore; cbn.
  destruct svc; cbn;
    [ destruct (serve O _ _ _) as [[r ds'] ext']; cbn; now rewrite <- ?app_assoc
    | destruct (datastore.Delete _ _) as [r ds']; cbn; now rewrite <- ?app_assoc ].
Qed.

(** C5, as amended.  A delete event for a CLI-origin resource whose
    composed-key record exists, with no application service wired in.
    When the store reads the composed key, [DeleteApp] probes that key and
    issues one delete, for that key and no other, and returns the delete's
    answer; when the delete does not fail the result is nil and the store is
    the old one less the composed record, and in either case every other
    record, the one under the bare name among them, is as it was and the
    cache is not touched.  Whatever the probes answer, a record under the
    bare name that belongs to another namespace is left as it was. *)
Theorem DeleteApp_removes_composed_record c targetApp row :
  appFromCLI O targetApp = true →
  applicationService c = false →
  datastore.rows (ds c)
    !! formatAppComposedName (v1beta1.Name targetApp) (v1beta1.Namespace targetApp)
    = Some row →
  let key := formatAppComposedName (v1beta1.Name targetApp) (v1beta1.Namespace targetApp) in
  (datastore.getFails (ds c) key = None →
   value (DeleteApp targetApp c) = datastore.deleteFails (ds c) key
   ∧ trace (DeleteApp targetApp c)
     = [(ds_Get (keyed key), Got (Ok (fetched key row)));
        (ds_Delete (keyed key), Returned (datastore.deleteFails (ds c) key))]
   ∧ (datastore.deleteFails (ds c) key = None →
      value (DeleteApp targetApp c) = None
      ∧ datastore.rows (ds (final (DeleteApp targetApp c)))
        = delete key (datastore.rows (ds c)))
   ∧ (∀ k, k ≠ key →
        datastore.rows (ds (final (DeleteApp targetApp c))) !! k
        = datastore.rows (ds c) !! k)
   ∧ datastore.rows (ds (final (DeleteApp targetApp c))) !! v1beta1.Name targetApp
     = datastore.rows (ds c) !! v1beta1.Name targetApp
   ∧ cache (final (DeleteApp targetApp c)) = cache c)
  ∧ (∀ bare,
       datastore.rows (ds c) !! v1beta1.Name targetApp = Some bare →
       index (model.Labels bare) model.LabelSyncNamespace ≠ v1beta1.Namespace targetApp →
       datastore.rows (ds (final (DeleteApp targetApp c))) !! v1beta1.Name targetApp
       = Some bare).
Proof.
  intros Hcli Hsvc E key. subst key.
  rewrite DeleteApp_acting by auto. rewrite Hcli, Hsvc.
  split.
  - intros F. rewrite (getApp_composed _ _ _ _ (Get_found _ _ _ E F)).
    unfold value, trace, final; cbn [fst snd fetched model.Name].
    unfold datastore.Delete; cbn [keyed model.Name].
    destruct (datastore.deleteFails (ds c) _) as [e|] eqn:D; cbn.
    + repeat split; auto. discriminate.
    + rewrite E. cbn. repeat split; auto.
      * intros k Hk. now apply lookup_delete_ne.
      * apply lookup_delete_ne. apply composed_not_bare.
  - intros bare Ebare Hforeign.
    destruct (datastore.Get (ds c)
                (keyed (formatAppComposedName (v1beta1.Name targetApp)
                          (v1beta1.Namespace targetApp)))) as [a|e1] eqn:E1.
    + rewrite (getApp_composed _ _ _ _ E1).
      destruct (Get_Ok_inv _ _ _ E1) as (row' & _ & _ & ->).
      unfold value, trace, final; cbn [fst snd fetched model.Name].
      unfold datastore.Delete; cbn [keyed model.Name].
      destruct (datastore.deleteFails (ds c) _); cbn; [exact Ebare|].
      rewrite E. cbn. rewrite lookup_delete_ne; [exact Ebare | apply composed_not_bare].
    + destruct (datastore.Get (ds c) (keyed (v1beta1.Name targetApp))) as [a|e2] eqn:E2.
      * rewrite (getApp_bare _ _ _ _ _ E1 E2).
        destruct (Get_Ok_inv _ _ _ E2) as (row' & Erow & _ & ->).
        assert (row' = bare) as -> by congruence.
        destruct (decide _) as [_|Hown]; [exact Ebare|].
        exfalso. apply Hown. exact Hforeign.
      * rewrite (getApp_neither _ _ _ _ _ E1 E2). exact Ebare.
Qed.

(** C6. A console-origin resource whose application-name annotation is
    empty or absent: [AddOrUpdate] returns the error "appName is empty in
    application <name>", makes no call at all (no workflow-record
    synchronisation, no store access) and leaves the state as it was. *)
Theorem AddOrUpdate_console_without_appName c targetApp :
  appFromUX O targetApp = true →
  index_nilable (v1beta1.Annotations targetApp) oam.AnnotationAppName = EmptyString →
  AddOrUpdate targetApp c =
    (Some (Errorf ("appName is empty in application " +:+ v1beta1.Name targetApp)), c, []).
Proof.
  intros Hux Hann. unfold AddOrUpdate, syncAppCreatedByUX.
  rewrite Hux, Hann. reflexivity.
Qed.

(** C9. A resource that is neither console-origin nor CLI-origin:
    [AddOrUpdate] returns nil, its only call is the log line "skip
    syncing application", and the state (store, cache, collaborators) is
    as it was. *)
Theorem AddOrUpdate_skips_unrecognised c targetApp :
  appFromUX O targetApp = false →
  appFromCLI O targetApp = false →
  AddOrUpdate targetApp c =
    (None, c,
     [(klog Info "skip syncing application %s/%s"
         [AStr (v1beta1.Name targetApp); AStr (v1beta1.Namespace targetApp)], Done)])
  ∧ Forall (λ e, writesOrCollaborates e.1 = false) (trace (AddOrUpdate targetApp c)).
Proof.
  intros Hux Hcli. unfold AddOrUpdate. rewrite Hux, Hcli.
  split; [reflexivity|]. repeat constructor.
Qed.

End Entry.

(** ** The CLI path *)

(** [getAppMetaName] only probes the store. *)
Lemma getAppMetaName_reads {O : Outside} (c : State O) (name namespace : string) :
  final (getAppMetaName name namespace c) = c
  ∧ Forall (λ e, isGet e.1 = true) (trace (getAppMetaName name namespace c)).
Proof.
  unfold getAppMetaName, getApp, bind, call, ret, exec, ev, answer, final, trace.
  cbn. destruct (datastore.Get (ds c) (keyed (formatAppComposedName name namespace))).
  - cbn. split; [reflexivity | repeat constructor].
  - cbn. destruct (datastore.Get (ds c) (keyed name)); cbn.
    + destruct (decide _); cbn; (split; [reflexivity | repeat constructor]).
    + split; [reflexivity | repeat constructor].
Qed.

Lemma only_gets (l : list Event) (x : Event) :
  Forall (λ e, isGet e.1 = true) l → In x l → isGet x.1 = true.
Proof. intros Hall Hin. rewrite Forall_forall in Hall. apply Hall. now apply list_elem_of_In. Qed.

(** Name the outcome of the store probes of [getAppMetaName]. *)
Ltac meta_name :=
  match goal with
  | |- context [getAppMetaName ?n ?m ?c] =>
      let key := fresh "key" in
      let c' := fresh "c'" in
      let probes := fresh "probes" in
      let Hc := fresh "Hc" in
      let Hprobes := fresh "Hprobes" in
      destruct (getAppMetaName_reads c n m) as [Hc Hprobes];
      destruct (getAppMetaName n m c) as [[key c'] probes];
      unfold final, trace in Hc, Hprobes; cbn in Hc, Hprobes; subst c'
  end.

(** Run the function symbolically: one case per answer of a collaborator. *)
Ltac crank :=
  unfold value, final, trace, syncAppCreatedByCLI, andThen, check,
    bind, call, ret, exec, ev, answer;
  repeat first
    [ progress cbn
    | meta_name
    | match goal with
      | |- context [serve ?O' ?k ?d ?x] =>
          let r := fresh "r" in
          destruct (serve O' k d x) as [[r ?] ?] eqn:?; cbn in r; destruct r
      | |- context [needsSync ?O' ?c ?a ?b] => destruct (needsSync O' c a b) eqn:?
      | |- context [Project ?d] => destruct (Project d) eqn:?
      | |- context [v1beta1.Workflow ?d] => destruct (v1beta1.Workflow d) eqn:?
      | |- context [decide ?P] => destruct (decide P)
      end ].

(** Go through the entries of a trace that a hypothesis [In x trace] allows. *)
Ltac in_cases H :=
  simpl in H;
  lazymatch type of H with
  | _ ∨ _ =>
      let H' := fresh "Hev" in
      destruct H as [H'|H]; [ try discriminate H'; simplify_eq | in_cases H ]
  | In _ (_ ++ _) =>
      let H' := fresh "Hev" in
      apply in_app_or in H; destruct H as [H'|H];
      [ exfalso;
        match goal with
        | Hp : Forall _ ?l |- _ =>
            match type of H' with
            | In _ l => apply (only_gets _ _ Hp) in H'; discriminate H'
            end
        end
      | in_cases H ]
  | False => destruct H
  | _ => idtac
  end.

(** Find an entry in a trace. *)
Ltac find_in :=
  solve [ repeat first [ left; reflexivity | right | apply in_or_app; right ] ].

(** A property of every entry of a trace; the probes are reads. *)
Ltac all_of :=
  solve
    [ repeat first
        [ apply List.Forall_nil
        | apply List.Forall_cons; [reflexivity|]
        | apply Forall_app; split
        | solve [ eapply Forall_impl; [eassumption|];
                  intros [k ?] Hk; destruct k; simpl in *;
                  (reflexivity || discriminate) ] ] ].

Section Pipeline.

Context {O : Outside}.
Implicit Types (c : State O) (targetApp : v1beta1.Application).

#[local] Arguments getAppMetaName : simpl never.
#[local] Arguments gostrings.Replace : simpl never.
#[local] Arguments formatAppComposedName : simpl never.
#[local] Arguments GetPublishVersion : simpl never.

(** C2. When the components step of a CLI-origin sync answers with an
    error [e], [syncAppCreatedByCLI] returns exactly [e]; the trace holds
    none of the later steps (policies, workflow, application revision,
    workflow record, application metadata), no cache update and no
    workflow-record synchronisation, the failure is logged, and the
    revision cache is as it was. *)
Theorem syncAppCreatedByCLI_components_fail_fast c targetApp name comps e :
  In (collab (StoreComponents name comps), Returned (Some e))
     (trace (syncAppCreatedByCLI targetApp c)) →
  value (syncAppCreatedByCLI targetApp c) = Some e
  ∧ Forall (λ x, afterComponents x.1 = false) (trace (syncAppCreatedByCLI targetApp c))
  ∧ Forall (λ x, isSyncWorkflowRecord x.1 = false) (trace (syncAppCreatedByCLI targetApp c))
  ∧ In (klog Error "Store Components Metadata to data store err %v" [AErr e], Done)
       (trace (syncAppCreatedByCLI targetApp c))
  ∧ cache (final (syncAppCreatedByCLI targetApp c)) = cache c.
Proof.
  crank.
  all: intros H; in_cases H.
  all: repeat split; try find_in; repeat constructor.
Qed.

(** C4. When the last step of the pipeline, the application metadata, has
    answered nil (so every step before it has), the revision cache
    afterwards is the old cache with the composed key name-namespace of
    the live resource set to the synced revision of the bundle's revision
    and the number of its targets; the bundle is the one the conversion
    returned, and the key does not depend on the key the record has in the
    store. *)
Theorem syncAppCreatedByCLI_updates_cache c targetApp dsApp :
  In (collab (StoreAppMeta dsApp), Returned None)
     (trace (syncAppCreatedByCLI targetApp c)) →
  let key := formatAppComposedName (v1beta1.Name targetApp) (v1beta1.Namespace targetApp) in
  let entry := {| revision := getSyncedRevision O (Revision dsApp);
                  targets := Z.of_nat (length (Targets dsApp)) |} in
  In (collab (ConvertApp2DatastoreApp targetApp), Converted (Ok dsApp))
     (trace (syncAppCreatedByCLI targetApp c))
  ∧ In (syncCache key (revision entry) (targets entry), Done)
       (trace (syncAppCreatedByCLI targetApp c))
  ∧ cache (final (syncAppCreatedByCLI targetApp c)) = <[key := entry]> (cache c)
  ∧ cache (final (syncAppCreatedByCLI targetApp c)) !! key = Some entry.
Proof.
  intros H key entry. revert H. subst key entry.
  crank.
  all: intros H; in_cases H.
  all: repeat split; try find_in; try apply lookup_insert_eq.
Qed.

(** C10. When the conversion returns a bundle without a project, the
    trace holds no project step and the call right after the conversion is
    the targets step; and whenever a project step is in the trace, the
    conversion returned a bundle carrying that project. *)
Theorem syncAppCreatedByCLI_project_optional c targetApp :
  (∀ dsApp,
      In (collab (ConvertApp2DatastoreApp targetApp), Converted (Ok dsApp))
         (trace (syncAppCreatedByCLI targetApp c)) →
      Project dsApp = None →
      Forall (λ x, isStoreProject x.1 = false) (trace (syncAppCreatedByCLI targetApp c))
      ∧ ∃ r rest,
          trace (syncAppCreatedByCLI targetApp c)
          = [(shouldSyncMetaFromCLI targetApp false, Said true);
             (collab (ConvertApp2DatastoreApp targetApp), Converted (Ok dsApp));
             (collab (StoreTargets dsApp), Returned r)] ++ rest)
  ∧ (∀ project r,
        In (collab (StoreProject project), Returned r)
           (trace (syncAppCreatedByCLI targetApp c)) →
        ∃ dsApp,
          In (collab (ConvertApp2DatastoreApp targetApp), Converted (Ok dsApp))
             (trace (syncAppCreatedByCLI targetApp c))
          ∧ Project dsApp = Some project).
Proof.
  crank.
  all: split; [ intros dsApp H Hnone; in_cases H | intros project r' H; in_cases H ].
  all: try congruence.
  all: try (split; [ all_of | eexists _, _; reflexivity ]).
  all: try (eexists; split; [ find_in | eassumption ]).
Qed.


(** C7. For a CLI-origin resource without publish version whose status
    has a workflow revision marker, every [SyncWorkflowRecord] call of the
    run is for this resource and carries as record name the marker with
    its first colon turned into a hyphen, which is what
    [strings.Replace(marker, ":", "-", 1)] gives; and the call is made, and
    its answer returned, whenever the pipeline was not due or ran to its
    last step. *)
Theorem syncAppCreatedByCLI_fallback_record_name c targetApp workflow :
  GetPublishVersion targetApp = EmptyString →
  v1beta1.Workflow (v1beta1.Status targetApp) = Some workflow →
  (∀ appKey recordName app r,
      In (collab (SyncWorkflowRecord appKey recordName app), Returned r)
         (trace (syncAppCreatedByCLI targetApp c)) →
      recordName = replaceFirstColon (v1beta1.AppRevision workflow)
      ∧ recordName = gostrings.Replace (v1beta1.AppRevision workflow) ":" "-" 1
      ∧ app = targetApp)
  ∧ (needsSync O c targetApp false = false
     ∨ (∃ dsApp, In (collab (StoreAppMeta dsApp), Returned None)
                    (trace (syncAppCreatedByCLI targetApp c))) →
     ∃ appKey,
       In (collab (SyncWorkflowRecord appKey
                     (replaceFirstColon (v1beta1.AppRevision workflow)) targetApp),
           Returned (value (syncAppCreatedByCLI targetApp c)))
          (trace (syncAppCreatedByCLI targetApp c))).
Proof.
  intros Hpv Hwf. rewrite <- Replace_first_colon.
  crank.
  all: try congruence.
  all: simplify_eq.
  all: split;
    [ intros appKey recordName app r' H; in_cases H
    | intros [Hgate | [dsApp H]]; [ try discriminate Hgate | in_cases H ] ].
  all: try (repeat split; congruence).
  all: try (eexists; find_in).
Qed.

(** C3, what the code does.  Whenever the CLI path logs that it skips the
    workflow status (no publish version, no revision marker in the
    status), it goes on to call [SyncWorkflowRecord] all the same, with an
    empty record name, and returns that call's answer. *)
Theorem syncAppCreatedByCLI_warns_and_syncs c targetApp :
  In (skipWarning targetApp, Done) (trace (syncAppCreatedByCLI targetApp c)) →
  GetPublishVersion targetApp = EmptyString
  ∧ v1beta1.Workflow (v1beta1.Status targetApp) = None
  ∧ ∃ appKey,
      In (collab (SyncWorkflowRecord appKey EmptyString targetApp),
          Returned (value (syncAppCreatedByCLI targetApp c)))
         (trace (syncAppCreatedByCLI targetApp c)).
Proof.
  unfold skipWarning. crank.
  all: intros H; in_cases H.
  all: repeat split; try assumption.
  all: match goal with
       | He : GetPublishVersion _ = EmptyString |- _ => rewrite ?He
       end.
  all: eexists; find_in.
Qed.

End Pipeline.

(** ** The theorems at work on concrete runs *)

(** Witness of C5: "web" belongs to "staging", "prod" has "web-prod"; the
    delete event of prod's "web" removes "web-prod" and keeps "web". *)
Lemma DeleteApp_removes_composed_record_witness :
  value (DeleteApp (O := Fixture.cliIdle) Fixture.web Fixture.shared) = None
  ∧ datastore.rows (ds (final (DeleteApp (O := Fixture.cliIdle) Fixture.web Fixture.shared)))
    = delete "web-prod" (datastore.rows (ds Fixture.shared))
  ∧ datastore.rows (ds (final (DeleteApp (O := Fixture.cliIdle) Fixture.web Fixture.shared)))
      !! "web"
    = Some (Fixture.rowOf "web" "staging").
Proof.
  destruct (DeleteApp_removes_composed_record (O := Fixture.cliIdle)
              Fixture.shared Fixture.web (Fixture.rowOf "web-prod" "prod")
              eq_refl eq_refl eq_refl)
    as (Hread & Hforeign).
  destruct (Hread eq_refl) as (_ & _ & Hdone & _).
  destruct (Hdone eq_refl) as (Hvalue & Hstore).
  split; [exact Hvalue | split; [exact Hstore |]].
  apply (Hforeign (Fixture.rowOf "web" "staging")); [reflexivity | discriminate].
Defined.

(** C5 as the specification states it fails on a store that cannot read the
    composed key: "web-prod" and "web" are both stored for "prod", the probe
    of "web-prod" fails, and [DeleteApp] deletes "web" and keeps
    "web-prod". *)
Lemma DeleteApp_removes_composed_record_counterexample :
  appFromCLI Fixture.cliIdle Fixture.web = true
  ∧ applicationService Fixture.flaky = false
  ∧ datastore.rows (ds Fixture.flaky) !! "web-prod" = Some (Fixture.rowOf "web-prod" "prod")
  ∧ value (DeleteApp (O := Fixture.cliIdle) Fixture.web Fixture.flaky) = None
  ∧ trace (DeleteApp (O := Fixture.cliIdle) Fixture.web Fixture.flaky)
    = [(ds_Get (keyed "web-prod"), Got (Fail (Errorf "store: timeout")));
       (ds_Get (keyed "web"), Got (Ok (fetched "web" (Fixture.rowOf "web" "prod"))));
       (ds_Delete (keyed "web"), Returned None)]
  ∧ datastore.rows (ds (final (DeleteApp (O := Fixture.cliIdle) Fixture.web Fixture.flaky)))
      !! "web-prod"
    = Some (Fixture.rowOf "web-prod" "prod")
  ∧ datastore.rows (ds (final (DeleteApp (O := Fixture.cliIdle) Fixture.web Fixture.flaky)))
      !! "web"
    = None.
Proof. repeat split; vm_compute; reflexivity. Qed.

(** Witness of C6: a console-origin resource without annotations. *)
Lemma AddOrUpdate_console_without_appName_witness :
  AddOrUpdate (O := Fixture.console) Fixture.web Fixture.empty
  = (Some (Errorf "appName is empty in application web"), Fixture.empty, []).
Proof.
  apply (AddOrUpdate_console_without_appName (O := Fixture.console)
           Fixture.empty Fixture.web); reflexivity.
Defined.

(** Witness of C9: a resource of neither origin. *)
Lemma AddOrUpdate_skips_unrecognised_witness :
  AddOrUpdate (O := Fixture.stranger) Fixture.web Fixture.empty
  = (None, Fixture.empty,
     [(klog Info "skip syncing application %s/%s" [AStr "web"; AStr "prod"], Done)]).
Proof.
  apply (AddOrUpdate_skips_unrecognised (O := Fixture.stranger)
           Fixture.empty Fixture.web); reflexivity.
Defined.

(** Witness of C2: the components step fails. *)
Lemma syncAppCreatedByCLI_components_fail_fast_witness :
  value (syncAppCreatedByCLI (O := Fixture.cliBroken) Fixture.web Fixture.empty)
  = Some (Errorf "components: store unavailable")
  ∧ cache (final (syncAppCreatedByCLI (O := Fixture.cliBroken) Fixture.web Fixture.empty))
    = ∅.
Proof.
  destruct (syncAppCreatedByCLI_components_fail_fast (O := Fixture.cliBroken)
              Fixture.empty Fixture.web "web" [ {| model.ComponentName := "server" |} ]
              (Errorf "components: store unavailable"))
    as (Hvalue & _ & _ & _ & Hcache).
  - vm_compute. find_in.
  - split; [exact Hvalue | exact Hcache].
Defined.

(** Witness of C4: the whole pipeline succeeds for "web" in "prod". *)
Lemma syncAppCreatedByCLI_updates_cache_witness :
  cache (final (syncAppCreatedByCLI (O := Fixture.cliDue) Fixture.web Fixture.empty))
    !! "web-prod"
  = Some {| revision := "web-v1"; targets := 2 |}.
Proof.
  destruct (syncAppCreatedByCLI_updates_cache (O := Fixture.cliDue)
              Fixture.empty Fixture.web Fixture.bundle)
    as (_ & _ & _ & Hlookup).
  - vm_compute. find_in.
  - exact Hlookup.
Defined.

(** Witness of C10: the bundle of the fixture has no project. *)
Lemma syncAppCreatedByCLI_project_optional_witness :
  Forall (λ x, isStoreProject x.1 = false)
    (trace (syncAppCreatedByCLI (O := Fixture.cliDue) Fixture.web Fixture.empty))
  ∧ ∃ r rest,
      trace (syncAppCreatedByCLI (O := Fixture.cliDue) Fixture.web Fixture.empty)
      = [(shouldSyncMetaFromCLI Fixture.web false, Said true);
         (collab (ConvertApp2DatastoreApp Fixture.web), Converted (Ok Fixture.bundle));
         (collab (StoreTargets Fixture.bundle), Returned r)] ++ rest.
Proof.
  apply (proj1 (syncAppCreatedByCLI_project_optional (O := Fixture.cliDue)
                  Fixture.empty Fixture.web) Fixture.bundle).
  - vm_compute. find_in.
  - reflexivity.
Defined.

(** Witness of C7: the marker "web-v1:8f2c:1" gives the record name
    "web-v1-8f2c:1". *)
Lemma syncAppCreatedByCLI_fallback_record_name_witness :
  ∃ appKey,
    In (collab (SyncWorkflowRecord appKey "web-v1-8f2c:1" Fixture.web),
        Returned (value (syncAppCreatedByCLI (O := Fixture.cliIdle) Fixture.web Fixture.empty)))
       (trace (syncAppCreatedByCLI (O := Fixture.cliIdle) Fixture.web Fixture.empty)).
Proof.
  apply (proj2 (syncAppCreatedByCLI_fallback_record_name (O := Fixture.cliIdle)
                  Fixture.empty Fixture.web {| v1beta1.AppRevision := "web-v1:8f2c:1" |}
                  eq_refl eq_refl)).
  left. reflexivity.
Defined.

(** C3 on a resource that has neither publish version nor revision marker:
    the warning is logged and [SyncWorkflowRecord] is called with an empty
    record name. *)
Lemma syncAppCreatedByCLI_warns_and_syncs_witness :
  In (skipWarning Fixture.fresh, Done)
     (trace (syncAppCreatedByCLI (O := Fixture.cliIdle) Fixture.fresh Fixture.empty))
  ∧ ∃ appKey,
      In (collab (SyncWorkflowRecord appKey EmptyString Fixture.fresh),
          Returned (value (syncAppCreatedByCLI (O := Fixture.cliIdle) Fixture.fresh Fixture.empty)))
         (trace (syncAppCreatedByCLI (O := Fixture.cliIdle) Fixture.fresh Fixture.empty)).
Proof.
  assert (H : In (skipWarning Fixture.fresh, Done)
                (trace (syncAppCreatedByCLI (O := Fixture.cliIdle)
                          Fixture.fresh Fixture.empty)))
    by (vm_compute; find_in).
  split; [exact H|].
  exact (proj2 (proj2 (syncAppCreatedByCLI_warns_and_syncs (O := Fixture.cliIdle)
                         Fixture.empty Fixture.fresh H))).
Defined.

(** ** More on the naming resolver *)

Lemma append_assoc (s1 s2 s3 : string) : (s1 +:+ s2) +:+ s3 = s1 +:+ s2 +:+ s3.
Proof.
  induction s1 as [|a s1 IH]; [reflexivity|].
  change (String a ((s1 +:+ s2) +:+ s3) = String a (s1 +:+ s2 +:+ s3)).
  now rewrite IH.
Qed.

(** For one name, different namespaces give different composed keys. *)
Lemma composed_inj_namespace (name ns1 ns2 : string) :
  formatAppComposedName name ns1 = formatAppComposedName name ns2 → ns1 = ns2.
Proof.
  unfold formatAppComposedName. intros E.
  apply (inj (String.append name)) in E.
  now apply (inj (String.append "-")) in E.
Qed.

(** What a failed probe tells about a store that reads the key. *)
Lemma Get_Fail_inv (ds : datastore.DataStore) (key : string) (e : error) :
  datastore.Get ds (keyed key) = Fail e →
  datastore.getFails ds key = None →
  datastore.rows ds !! key = None ∧ e = ErrRecordNotExist.
Proof.
  unfold datastore.Get. simpl. intros E F. rewrite F in E.
  destruct (datastore.rows ds !! key); [discriminate|].
  now injection E as <-.
Qed.

Section ResolverContract.

Context {O : Outside}.
Implicit Types (c : State O) (name namespace : string).

(** All the outcomes of [getApp], by what the two probes answer. *)
Lemma getApp_cases c name namespace :
  (∃ row, datastore.rows (ds c) !! formatAppComposedName name namespace = Some row
          ∧ datastore.getFails (ds c) (formatAppComposedName name namespace) = None
          ∧ getApp name namespace c =
              (Some (fetched (formatAppComposedName name namespace) row),
               formatAppComposedName name namespace, None, c,
               [(ds_Get (keyed (formatAppComposedName name namespace)),
                 Got (Ok (fetched (formatAppComposedName name namespace) row)))]))
  ∨ (∃ e1 row,
        datastore.Get (ds c) (keyed (formatAppComposedName name namespace)) = Fail e1
        ∧ datastore.rows (ds c) !! name = Some row
        ∧ datastore.getFails (ds c) name = None
        ∧ index (model.Labels row) model.LabelSyncNamespace = namespace
        ∧ getApp name namespace c =
            (Some (fetched name row), name, None, c,
             [(ds_Get (keyed (formatAppComposedName name namespace)), Got (Fail e1));
              (ds_Get (keyed name), Got (Ok (fetched name row)))]))
  ∨ (∃ e1 row,
        datastore.Get (ds c) (keyed (formatAppComposedName name namespace)) = Fail e1
        ∧ datastore.rows (ds c) !! name = Some row
        ∧ datastore.getFails (ds c) name = None
        ∧ index (model.Labels row) model.LabelSyncNamespace ≠ namespace
        ∧ getApp name namespace c =
            (None, formatAppComposedName name namespace, Some e1, c,
             [(ds_Get (keyed (formatAppComposedName name namespace)), Got (Fail e1));
              (ds_Get (keyed name), Got (Ok (fetched name row)))]))
  ∨ (∃ e1 e2,
        datastore.Get (ds c) (keyed (formatAppComposedName name namespace)) = Fail e1
        ∧ datastore.Get (ds c) (keyed name) = Fail e2
        ∧ getApp name namespace c =
            (None, name, Some e2, c,
             [(ds_Get (keyed (formatAppComposedName name namespace)), Got (Fail e1));
              (ds_Get (keyed name), Got (Fail e2))])).
Proof.
  destruct (datastore.Get (ds c) (keyed (formatAppComposedName name namespace)))
    as [a|e1] eqn:E1.
  { left. destruct (Get_Ok_inv _ _ _ E1) as (row & E & F & ->).
    exists row. repeat split; try assumption. now rewrite (getApp_composed _ _ _ _ E1). }
  right. destruct (datastore.Get (ds c) (keyed name)) as [a|e2] eqn:E2.
  - destruct (Get_Ok_inv _ _ _ E2) as (row & E & F & ->).
    pose proof (getApp_bare c name namespace e1 _ E1 E2) as Hrun. cbn in Hrun.
    destruct (decide (index (model.Labels row) model.LabelSyncNamespace ≠ namespace))
      as [Hne|Heq].
    + right; left. exists e1, row. auto.
    + left. exists e1, row. repeat split; try assumption.
      destruct (decide (index (model.Labels row) model.LabelSyncNamespace = namespace));
        [assumption | contradiction].
  - right; right. exists e1, e2. repeat split. now apply getApp_neither.
Qed.

(** X1. The composed key is authoritative: when a record is stored under
    name-namespace and the store reads it, [getApp] returns it with that key
    and a nil error after a single probe; the bare name is not read, whoever
    holds it. *)
Theorem getApp_composed_wins c name namespace row :
  datastore.rows (ds c) !! formatAppComposedName name namespace = Some row →
  datastore.getFails (ds c) (formatAppComposedName name namespace) = None →
  value (getApp name namespace c)
  = (Some (fetched (formatAppComposedName name namespace) row),
     formatAppComposedName name namespace, None)
  ∧ trace (getApp name namespace c)
    = [(ds_Get (keyed (formatAppComposedName name namespace)),
        Got (Ok (fetched (formatAppComposedName name namespace) row)))]
  ∧ Forall (λ e, e.1 ≠ ds_Get (keyed name)) (trace (getApp name namespace c)).
Proof.
  intros E F. rewrite (getApp_composed _ _ _ _ (Get_found _ _ _ E F)).
  unfold value, trace; cbn.
  repeat split. repeat constructor. cbn. intros [= Heq].
  now apply composed_not_bare in Heq.
Qed.

(** X2. When the probe of the composed key fails (no composed record, or a
    failing read) and the store reads the bare name, whose record belongs to
    the asking namespace itself, [getApp] returns the bare record, the bare
    name as canonical key and a nil error. *)
Theorem getApp_own_bare_name c name namespace e1 row :
  datastore.Get (ds c) (keyed (formatAppComposedName name namespace)) = Fail e1 →
  datastore.rows (ds c) !! name = Some row →
  datastore.getFails (ds c) name = None →
  index (model.Labels row) model.LabelSyncNamespace = namespace →
  getApp name namespace c =
    (Some (fetched name row), name, None, c,
     [(ds_Get (keyed (formatAppComposedName name namespace)), Got (Fail e1));
      (ds_Get (keyed name), Got (Ok (fetched name row)))]).
Proof.
  intros E1 E2 F Hns. rewrite (getApp_bare _ _ _ _ _ E1 (Get_found _ _ _ E2 F)).
  destruct (decide _) as [Hne|_]; [contradiction | reflexivity].
Qed.

(** X3. The contract of [getApp] on every store: it returns a record exactly
    when the error is nil; the canonical key is the bare name or the
    composed key; a returned record carries the canonical key as its name
    and the labels of the row stored under that key; the state is left as
    it was and the trace is one or two store reads. *)
Theorem getApp_contract c name namespace :
  let '(app, appName, err) := value (getApp name namespace c) in
  (app = None ↔ err ≠ None)
  ∧ (appName = name ∨ appName = formatAppComposedName name namespace)
  ∧ (∀ a, app = Some a →
       model.Name a = appName
       ∧ ∃ row, datastore.rows (ds c) !! appName = Some row ∧ a = fetched appName row)
  ∧ final (getApp name namespace c) = c
  ∧ Forall (λ e, isGet e.1 = true) (trace (getApp name namespace c))
  ∧ (1 ≤ length (trace (getApp name namespace c)) ≤ 2)%nat.
Proof.
  destruct (getApp_cases c name namespace)
    as [(row & E & F & ->) | [(e1 & row & E1 & E2 & F & Hns & ->)
       | [(e1 & row & E1 & E2 & F & Hns & ->) | (e1 & e2 & E1 & E2 & ->)]]];
    unfold value, final, trace; cbn;
    (split; [split; intros; congruence|]);
    (split; [auto|]);
    (split; [intros found Hfound; simplify_eq; try (split; [reflexivity | eauto]) |]);
    (split; [reflexivity|]);
    (split; [repeat constructor | lia]).
Qed.

(** X4. Claim, then resolve, on a store that reads the two keys: when
    [getApp] answers not-found with a canonical key and a record whose
    sync-namespace label is the asking namespace is then stored under that
    key, [getApp] finds exactly that record under the same key. *)
Theorem getApp_resolves_what_was_claimed c name namespace row :
  (value (getApp name namespace c)).1.1 = None →
  index (model.Labels row) model.LabelSyncNamespace = namespace →
  datastore.getFails (ds c) (formatAppComposedName name namespace) = None →
  datastore.getFails (ds c) name = None →
  let key := (value (getApp name namespace c)).1.2 in
  value (getApp name namespace
           (withStore c (withRows (ds c) (<[key := row]> (datastore.rows (ds c))))))
  = (Some (fetched key row), key, None).
Proof.
  intros Hnone Hns F1 F2 key. subst key.
  destruct (getApp_cases c name namespace)
    as [(row' & E & F & Hrun) | [(e1 & row' & E1 & E2 & F & Hns' & Hrun)
       | [(e1 & row' & E1 & E2 & F & Hns' & Hrun) | (e1 & e2 & E1 & E2 & Hrun)]]];
    rewrite Hrun in Hnone |- *; unfold value in Hnone |- *;
    cbn [fst snd] in Hnone |- *; try discriminate.
  - rewrite (getApp_composed (withStore c _) name namespace
               (fetched (formatAppComposedName name namespace) row)); [reflexivity|].
    apply Get_found; cbn; [apply lookup_insert_eq | exact F1].
  - destruct (Get_Fail_inv _ _ _ E1 F1) as [A1 _].
    rewrite (getApp_bare (withStore c _) name namespace ErrRecordNotExist (fetched name row)).
    + cbn. destruct (decide _) as [Hne|_]; [contradiction | reflexivity].
    + unfold datastore.Get; cbn. rewrite F1.
      rewrite lookup_insert_ne; [now rewrite A1|].
      intros Heq. symmetry in Heq. now apply composed_not_bare in Heq.
    + apply Get_found; cbn; [apply lookup_insert_eq | exact F2].
Qed.

(** X5. Two namespaces never resolve the same name to the same record:
    when [getApp] finds a record for (name, ns1) and one for (name, ns2)
    with ns1 different from ns2, the two canonical keys differ. *)
Theorem getApp_namespaces_do_not_share c name ns1 ns2 a1 a2 :
  ns1 ≠ ns2 →
  (value (getApp name ns1 c)).1.1 = Some a1 →
  (value (getApp name ns2 c)).1.1 = Some a2 →
  (value (getApp name ns1 c)).1.2 ≠ (value (getApp name ns2 c)).1.2
  ∧ model.Name a1 ≠ model.Name a2.
Proof.
  intros Hne H1 H2.
  destruct (getApp_cases c name ns1)
    as [(r1 & E & F & Hrun1) | [(e1 & r1 & E1 & E2 & F & Hns1 & Hrun1)
       | [(e1 & r1 & E1 & E2 & F & Hns1 & Hrun1) | (e1 & e2 & E1 & E2 & Hrun1)]]];
    rewrite Hrun1 in H1 |- *;
    destruct (getApp_cases c name ns2)
      as [(r2 & G & G' & Hrun2) | [(f1 & r2 & G1 & G2 & G' & Hns2 & Hrun2)
         | [(f1 & r2 & G1 & G2 & G' & Hns2 & Hrun2) | (f1 & f2 & G1 & G2 & Hrun2)]]];
    rewrite Hrun2 in H2 |- *;
    unfold value in H1, H2 |- *; cbn [fst snd] in H1, H2 |- *;
    try discriminate; simplify_eq; cbn [fetched model.Name].
  - split; intros Heq; apply composed_inj_namespace in Heq; contradiction.
  - split; intros Heq; now apply composed_not_bare in Heq.
  - split; intros Heq; symmetry in Heq; now apply composed_not_bare in Heq.
Qed.

(** X6. The composed key does not tell (name, namespace) apart when the name
    or the namespace has a hyphen: ("a-b", c) and ("a", "b-c") are different
    identities with one composed key, so once a record is stored under it
    and the store reads it, [getApp] returns that same record for both. *)
Theorem getApp_hyphen_collision c a b ns row :
  formatAppComposedName (a +:+ "-" +:+ b) ns = formatAppComposedName a (b +:+ "-" +:+ ns)
  ∧ a +:+ "-" +:+ b ≠ a
  ∧ (datastore.rows (ds c) !! formatAppComposedName (a +:+ "-" +:+ b) ns = Some row →
     datastore.getFails (ds c) (formatAppComposedName (a +:+ "-" +:+ b) ns) = None →
     value (getApp (a +:+ "-" +:+ b) ns c) = value (getApp a (b +:+ "-" +:+ ns) c)
     ∧ (value (getApp a (b +:+ "-" +:+ ns) c)).1.1
       = Some (fetched (formatAppComposedName a (b +:+ "-" +:+ ns)) row)).
Proof.
  assert (Hkey : formatAppComposedName (a +:+ "-" +:+ b) ns
                 = formatAppComposedName a (b +:+ "-" +:+ ns)).
  { unfold formatAppComposedName. now rewrite !append_assoc. }
  split; [exact Hkey | split].
  - exact (composed_not_bare a b).
  - intros E F. rewrite (getApp_composed _ _ _ _ (Get_found _ _ _ E F)).
    rewrite Hkey in E, F. rewrite (getApp_composed _ _ _ _ (Get_found _ _ _ E F)).
    unfold value; cbn. now rewrite Hkey.
Qed.

End ResolverContract.

(** ** More on the delete handler and the console path *)

Section Handlers.

Context {O : Outside}.
Implicit Types (c : State O) (targetApp : v1beta1.Application).

(** [DeleteApp] when the gate is closed. *)
Lemma DeleteApp_gate_closed c targetApp :
  appFromCLI O targetApp = false →
  needsSync O c targetApp true = false →
  DeleteApp targetApp c = (None, c, [(shouldSyncMetaFromCLI targetApp true, Said false)]).
Proof.
  intros Hcli Hsync. unfold DeleteApp, bind, call, ret, exec, ev, answer.
  rewrite Hcli. cbn. rewrite Hsync. reflexivity.
Qed.

(** X7. A delete event for a resource that is not CLI-origin and whose
    metadata-sync predicate says no is a silent no-op: [DeleteApp] returns
    nil, asks only the predicate, probes nothing, deletes nothing. *)
Theorem DeleteApp_ignores_other_origins c targetApp :
  appFromCLI O targetApp = false →
  needsSync O c targetApp true = false →
  value (DeleteApp targetApp c) = None
  ∧ trace (DeleteApp targetApp c) = [(shouldSyncMetaFromCLI targetApp true, Said false)]
  ∧ ds (final (DeleteApp targetApp c)) = ds c.
Proof.
  intros Hcli Hsync. rewrite (DeleteApp_gate_closed c targetApp Hcli Hsync).
  repeat split.
Qed.

(** X8. What [DeleteApp] can remove when no application service is wired
    in: a record that was stored and is gone afterwards sat under the
    composed key, which the store read, or under the bare name with the
    asking namespace as its sync-namespace while the probe of the composed
    key failed; every other record is kept as it was, no record appears,
    and the failures of the store are as they were. *)
Theorem DeleteApp_removes_only_its_own c targetApp :
  applicationService c = false →
  (∀ k row,
      datastore.rows (ds c) !! k = Some row →
      datastore.rows (ds (final (DeleteApp targetApp c))) !! k = Some row
      ∨ (k = formatAppComposedName (v1beta1.Name targetApp) (v1beta1.Namespace targetApp)
         ∧ datastore.getFails (ds c) k = None)
      ∨ (k = v1beta1.Name targetApp
         ∧ index (model.Labels row) model.LabelSyncNamespace = v1beta1.Namespace targetApp
         ∧ ∃ e1, datastore.Get (ds c)
                   (keyed (formatAppComposedName (v1beta1.Name targetApp)
                             (v1beta1.Namespace targetApp))) = Fail e1))
  ∧ (∀ k, datastore.rows (ds c) !! k = None →
          datastore.rows (ds (final (DeleteApp targetApp c))) !! k = None)
  ∧ datastore.getFails (ds (final (DeleteApp targetApp c))) = datastore.getFails (ds c)
  ∧ datastore.deleteFails (ds (final (DeleteApp targetApp c))) = datastore.deleteFails (ds c).
Proof.
  intros Hsvc.
  destruct (appFromCLI O targetApp) eqn:Hcli;
    [| destruct (needsSync O c targetApp true) eqn:Hsync].
  3: { rewrite (DeleteApp_gate_closed c targetApp Hcli Hsync). unfold final; cbn.
       split; [intros k row Hk; now left | auto]. }
  all: rewrite DeleteApp_acting by auto;
    destruct (getApp_cases c (v1beta1.Name targetApp) (v1beta1.Namespace targetApp))
      as [(row' & E & F & ->) | [(e1 & row' & E1 & E2 & F & Hns & ->)
         | [(e1 & row' & E1 & E2 & F & Hns & ->) | (e1 & e2 & E1 & E2 & ->)]]];
    unfold value, trace, final; cbn [fst snd]; rewrite ?Hsvc;
    unfold datastore.Delete, withStore; cbn [keyed model.Name].
  all: try (cbn; split; [intros k row Hk; now left | auto]; fail).
  all: destruct (datastore.deleteFails (ds c) _); cbn;
    try (split; [intros k row Hk; now left | auto]; fail).
  all: rewrite ?E, ?E2; cbn.
  all: split; [|split; [|split; reflexivity]]; intros k; intros;
    match goal with
    | |- context [delete ?key _] => destruct (decide (k = key)) as [->|Hk]
    end.
  all: try (left; rewrite lookup_delete_ne by congruence; assumption).
  all: try (rewrite lookup_delete_ne by congruence; assumption).
  all: try (apply lookup_delete_eq).
  all: simplify_eq; eauto 8.
Qed.

(** X9. When the resolver finds no record for the resource, [DeleteApp]
    hands the resolver's error back as it is and removes nothing, whether an
    application service is wired in or not; on a store that reads the two
    keys the error is the missing-record error. *)
Theorem DeleteApp_surfaces_resolver_error c targetApp :
  appFromCLI O targetApp = true →
  (value (getApp (v1beta1.Name targetApp) (v1beta1.Namespace targetApp) c)).1.1 = None →
  value (DeleteApp targetApp c)
  = (value (getApp (v1beta1.Name targetApp) (v1beta1.Namespace targetApp) c)).2
  ∧ value (DeleteApp targetApp c) ≠ None
  ∧ (datastore.getFails (ds c)
       (formatAppComposedName (v1beta1.Name targetApp) (v1beta1.Namespace targetApp)) = None →
     datastore.getFails (ds c) (v1beta1.Name targetApp) = None →
     value (DeleteApp targetApp c) = Some ErrRecordNotExist)
  ∧ trace (DeleteApp targetApp c)
    = trace (getApp (v1beta1.Name targetApp) (v1beta1.Namespace targetApp) c)
  ∧ Forall (λ e, isDelete e.1 = false) (trace (DeleteApp targetApp c))
  ∧ final (DeleteApp targetApp c) = c.
Proof.
  intros Hcli Hnone. rewrite DeleteApp_acting by auto. rewrite Hcli.
  destruct (getApp_cases c (v1beta1.Name targetApp) (v1beta1.Namespace targetApp))
    as [(row' & E & F & Hrun) | [(e1 & row' & E1 & E2 & F & Hns & Hrun)
       | [(e1 & row' & E1 & E2 & F & Hns & Hrun) | (e1 & e2 & E1 & E2 & Hrun)]]];
    rewrite Hrun in Hnone |- *; unfold value, trace, final in Hnone |- *;
    cbn [fst snd] in Hnone |- *; try discriminate; cbn;
    (split; [reflexivity|]); (split; [discriminate|]);
    (split; [|repeat split; repeat constructor]).
  - intros F1 _. now destruct (Get_Fail_inv _ _ _ E1 F1) as [_ ->].
  - intros _ F2. now destruct (Get_Fail_inv _ _ _ E2 F2) as [_ ->].
Qed.

(** X10. With an application service wired in, [DeleteApp] hands the record
    the resolver found to [DeleteApplication], returns the service's answer
    and issues no store delete of its own. *)
Theorem DeleteApp_delegates_to_service c targetApp found :
  appFromCLI O targetApp = true →
  applicationService c = true →
  (value (getApp (v1beta1.Name targetApp) (v1beta1.Namespace targetApp) c)).1.1
    = Some found →
  let answered := serve O (DeleteApplication (Some found)) (ds c) (ext c) in
  value (DeleteApp targetApp c) = answered.1.1
  ∧ trace (DeleteApp targetApp c)
    = trace (getApp (v1beta1.Name targetApp) (v1beta1.Namespace targetApp) c)
      ++ [(collab (DeleteApplication (Some found)), Returned answered.1.1)]
  ∧ ds (final (DeleteApp targetApp c)) = answered.1.2
  ∧ Forall (λ e, ∀ entity, e.1 ≠ ds_Delete entity) (trace (DeleteApp targetApp c)).
Proof.
  intros Hcli Hsvc Hfound answered. subst answered.
  rewrite DeleteApp_acting by auto. rewrite Hcli.
  destruct (getApp_cases c (v1beta1.Name targetApp) (v1beta1.Namespace targetApp))
    as [(row' & E & F & Hrun) | [(e1 & row' & E1 & E2 & F & Hns & Hrun)
       | [(e1 & row' & E1 & E2 & F & Hns & Hrun) | (e1 & e2 & E1 & E2 & Hrun)]]];
    rewrite Hrun in Hfound |- *; unfold value, trace, final in Hfound |- *;
    cbn [fst snd] in Hfound |- *; try discriminate; simplify_eq;
    rewrite Hsvc;
    destruct (serve O _ _ _) as [[r ds'] ext']; cbn;
    repeat split; repeat constructor; discriminate.
Qed.

(** X11. When the probe of the composed key fails, the store reads the
    bare name, whose record belongs to the resource's own namespace, and the
    delete does not fail, [DeleteApp] (no application service) deletes the
    bare record and nothing else. *)
Theorem DeleteApp_removes_own_bare_record c targetApp e1 row :
  appFromCLI O targetApp = true →
  applicationService c = false →
  datastore.Get (ds c)
    (keyed (formatAppComposedName (v1beta1.Name targetApp) (v1beta1.Namespace targetApp)))
    = Fail e1 →
  datastore.rows (ds c) !! v1beta1.Name targetApp = Some row →
  datastore.getFails (ds c) (v1beta1.Name targetApp) = None →
  index (model.Labels row) model.LabelSyncNamespace = v1beta1.Namespace targetApp →
  datastore.deleteFails (ds c) (v1beta1.Name targetApp) = None →
  value (DeleteApp targetApp c) = None
  ∧ datastore.rows (ds (final (DeleteApp targetApp c)))
    = delete (v1beta1.Name targetApp) (datastore.rows (ds c))
  ∧ trace (DeleteApp targetApp c)
    = [(ds_Get (keyed (formatAppComposedName (v1beta1.Name targetApp)
                         (v1beta1.Namespace targetApp))),
        Got (Fail e1));
       (ds_Get (keyed (v1beta1.Name targetApp)),
        Got (Ok (fetched (v1beta1.Name targetApp) row)));
       (ds_Delete (keyed (v1beta1.Name targetApp)), Returned None)].
Proof.
  intros Hcli Hsvc E1 E2 F Hns D. rewrite DeleteApp_acting by auto. rewrite Hcli.
  rewrite (getApp_bare _ _ _ _ _ E1 (Get_found _ _ _ E2 F)).
  destruct (decide _) as [Hne|_]; [contradiction|].
  unfold value, trace, final; cbn [fst snd]. rewrite Hsvc.
  unfold datastore.Delete; cbn. rewrite D, E2. cbn. auto.
Qed.

(** The run of the console path once the application name is there. *)
Lemma syncAppCreatedByUX_run c targetApp :
  let appKey := index_nilable (v1beta1.Annotations targetApp) oam.AnnotationAppName in
  let recordName :=
    index_nilable (v1beta1.Annotations targetApp) oam.AnnotationPublishVersion in
  let answered := serve O (SyncWorkflowRecord appKey recordName targetApp) (ds c) (ext c) in
  appKey ≠ EmptyString →
  syncAppCreatedByUX targetApp c =
    (answered.1.1,
     {| ds := answered.1.2; cache := cache c;
        applicationService := applicationService c; ext := answered.2 |},
     (if decide (recordName = EmptyString)
      then [(klog Warning "app %s/%s has no publish version, skip sync workflow status"
               [AStr (v1beta1.Namespace targetApp); AStr (v1beta1.Name targetApp)], Done)]
      else [])
     ++ [(collab (SyncWorkflowRecord appKey recordName targetApp), Returned answered.1.1)]
     ++ match answered.1.1 with
        | Some e =>
            [(klog ErrorS "failed to sync workflow status"
                [AErr e; AStr "oam app name"; AStr (v1beta1.Name targetApp);
                 AStr "workflow name"; AStr (GetPublishVersion targetApp);
                 AStr "record name"; AStr recordName], Done)]
        | None => []
        end).
Proof.
  intros appKey recordName answered Hkey. subst appKey recordName answered.
  unfold syncAppCreatedByUX.
  destruct (decide (index_nilable _ oam.AnnotationAppName = EmptyString)) as [|_];
    [contradiction|].
  unfold bind, call, ret, exec, ev, answer.
  destruct (v1beta1.Annotations targetApp) as [annotations|] eqn:Hann; cbn.
  - destruct (decide (index annotations oam.AnnotationPublishVersion = EmptyString)) as [Hpv|Hpv].
    + destruct (decide (_ ∨ _)) as [_|Hno]; [|exfalso; apply Hno; now right].
      cbn. destruct (serve O _ _ _) as [[[e|] ds'] ext']; reflexivity.
    + destruct (decide (_ ∨ _)) as [[Hnil|Hempty]|_]; [discriminate | contradiction |].
      cbn. destruct (serve O _ _ _) as [[[e|] ds'] ext']; reflexivity.
  - contradiction.
Qed.

(** X12. The console path with an application name [appKey]: the one
    collaborator call is [SyncWorkflowRecord appKey publishVersion], its
    answer is the result; a warning is logged exactly when the publish
    version is empty (the call is made all the same, with an empty record
    name) and the error is logged when there is one; the store is not
    probed and the cache is not touched. *)
Theorem syncAppCreatedByUX_forwards c targetApp :
  let appKey := index_nilable (v1beta1.Annotations targetApp) oam.AnnotationAppName in
  let recordName :=
    index_nilable (v1beta1.Annotations targetApp) oam.AnnotationPublishVersion in
  let answered := serve O (SyncWorkflowRecord appKey recordName targetApp) (ds c) (ext c) in
  appKey ≠ EmptyString →
  value (syncAppCreatedByUX targetApp c) = answered.1.1
  ∧ trace (syncAppCreatedByUX targetApp c)
    = (if decide (recordName = EmptyString)
       then [(klog Warning "app %s/%s has no publish version, skip sync workflow status"
                [AStr (v1beta1.Namespace targetApp); AStr (v1beta1.Name targetApp)], Done)]
       else [])
      ++ [(collab (SyncWorkflowRecord appKey recordName targetApp), Returned answered.1.1)]
      ++ match answered.1.1 with
         | Some e =>
             [(klog ErrorS "failed to sync workflow status"
                 [AErr e; AStr "oam app name"; AStr (v1beta1.Name targetApp);
                  AStr "workflow name"; AStr (GetPublishVersion targetApp);
                  AStr "record name"; AStr recordName], Done)]
         | None => []
         end
  ∧ Forall (λ e, isGet e.1 = false ∧ isStep e.1 = false ∧ isSyncCache e.1 = false)
      (trace (syncAppCreatedByUX targetApp c))
  ∧ ds (final (syncAppCreatedByUX targetApp c)) = answered.1.2
  ∧ cache (final (syncAppCreatedByUX targetApp c)) = cache c.
Proof.
  intros appKey recordName answered Hkey.
  rewrite (syncAppCreatedByUX_run c targetApp Hkey).
  fold appKey recordName answered. unfold value, trace, final; cbn [fst snd ds cache].
  repeat split.
  destruct (decide (recordName = EmptyString)); destruct (answered.1.1);
    repeat constructor.
Qed.

(** X13. The console classification comes first: for a resource that
    [appFromUX] accepts, whatever [appFromCLI] says, [AddOrUpdate] makes no
    call but log lines and at most one [SyncWorkflowRecord]; it does not ask
    the sync predicate, convert, store, probe or update the cache. *)
Theorem AddOrUpdate_console_comes_first c targetApp :
  appFromUX O targetApp = true →
  Forall (λ e, isKlog e.1 || isSyncWorkflowRecord e.1 = true)
    (trace (AddOrUpdate targetApp c))
  ∧ (length (List.filter (λ e, isSyncWorkflowRecord e.1) (trace (AddOrUpdate targetApp c))) ≤ 1)%nat
  ∧ cache (final (AddOrUpdate targetApp c)) = cache c.
Proof.
  intros Hux. unfold AddOrUpdate. rewrite Hux.
  destruct (decide (index_nilable (v1beta1.Annotations targetApp) oam.AnnotationAppName
                    = EmptyString)) as [Hempty|Hkey].
  - unfold syncAppCreatedByUX. destruct (decide _); [|contradiction].
    unfold trace, final; cbn. repeat split; [constructor | lia].
  - rewrite (syncAppCreatedByUX_run c targetApp Hkey).
    unfold trace, final; cbn [fst snd cache].
    destruct (decide (index_nilable (v1beta1.Annotations targetApp)
                        oam.AnnotationPublishVersion = EmptyString));
      destruct ((serve O _ (ds c) (ext c)).1.1);
      cbn; repeat split; repeat constructor.
Qed.

End Handlers.

(** ** More on the CLI path *)

Lemma stepsOf_cons (e : Event) (t : list Event) :
  stepsOf (e :: t) = (if isStep e.1 then [e.1] else []) ++ stepsOf t.
Proof. unfold stepsOf. cbn. now destruct (isStep e.1). Qed.

Lemma stepsOf_app (t1 t2 : list Event) : stepsOf (t1 ++ t2) = stepsOf t1 ++ stepsOf t2.
Proof. unfold stepsOf. now rewrite List.filter_app, map_app. Qed.

Lemma stepsOf_gets (t : list Event) :
  Forall (λ e, isGet e.1 = true) t → stepsOf t = [].
Proof.
  induction 1 as [|[k r] t Hk _ IH]; [reflexivity|].
  rewrite stepsOf_cons, IH. cbn in *. now destruct k.
Qed.

(** As [in_cases], for an entry whose call is not known: what the probes
    allow is left to the caller. *)
Ltac in_cases_of H :=
  simpl in H;
  lazymatch type of H with
  | _ ∨ _ =>
      let H' := fresh "Hev" in
      destruct H as [H'|H]; [ try discriminate H'; simplify_eq | in_cases_of H ]
  | In _ (_ ++ _) =>
      let H' := fresh "Hev" in
      apply in_app_or in H; destruct H as [H'|H];
      [ match goal with
        | Hp : Forall _ ?l |- _ =>
            match type of H' with
            | In _ l => apply (only_gets _ _ Hp) in H'; cbn in H'
            end
        end
      | in_cases_of H ]
  | False => destruct H
  | _ => idtac
  end.

(** Bring the store steps of a symbolic trace to a list. *)
Ltac steps_of :=
  rewrite ?stepsOf_cons, ?stepsOf_app;
  repeat match goal with
    | Hp : Forall _ ?l |- context [stepsOf ?l] => rewrite (stepsOf_gets l Hp)
    end;
  cbn [isStep fst app].

(** Run [syncAppCreatedByCLI] symbolically, once for all its occurrences. *)
Ltac crank_once :=
  match goal with
  | |- context [syncAppCreatedByCLI ?a ?c] =>
      let r := fresh "run" in
      let Hr := fresh "Hrun" in
      remember (syncAppCreatedByCLI a c) as r eqn:Hr; revert r Hr;
      crank; intros r Hr; subst r; unfold value, final, trace; cbn
  end.

Section PipelineMore.

Context {O : Outside}.
Implicit Types (c : State O) (targetApp : v1beta1.Application).

#[local] Arguments getApp : simpl never.
#[local] Arguments getAppMetaName : simpl never.
#[local] Arguments gostrings.Replace : simpl never.
#[local] Arguments formatAppComposedName : simpl never.
#[local] Arguments GetPublishVersion : simpl never.
#[local] Arguments stepsOf : simpl never.
#[local] Arguments pipelineOrder : simpl never.

(** X14. Fail fast at every step: whichever store step of the pipeline
    answers with an error [e], [syncAppCreatedByCLI] returns exactly [e],
    and the run has no cache update, no probe of the store and no
    workflow-record synchronisation; the revision cache is as it was. *)
Theorem syncAppCreatedByCLI_fails_fast_at_any_step c targetApp k e :
  isStep k = true →
  In (k, Returned (Some e)) (trace (syncAppCreatedByCLI targetApp c)) →
  value (syncAppCreatedByCLI targetApp c) = Some e
  ∧ Forall (λ x, isSyncCache x.1 = false ∧ isGet x.1 = false
                 ∧ isSyncWorkflowRecord x.1 = false)
      (trace (syncAppCreatedByCLI targetApp c))
  ∧ cache (final (syncAppCreatedByCLI targetApp c)) = cache c.
Proof.
  intros Hstep. crank_once.
  all: intros H; in_cases_of H; try discriminate Hstep.
  all: try (exfalso; destruct k as [| | | | |[]]; discriminate).
  all: repeat split; repeat constructor.
Qed.

(** X15. When the conversion fails with [e], [syncAppCreatedByCLI] logs it
    and returns [e] right away: no store step, no cache update, no
    workflow-record synchronisation. *)
Theorem syncAppCreatedByCLI_conversion_failure c targetApp e :
  needsSync O c targetApp false = true →
  (serve O (ConvertApp2DatastoreApp targetApp) (ds c) (ext c)).1.1 = Fail e →
  value (syncAppCreatedByCLI targetApp c) = Some e
  ∧ trace (syncAppCreatedByCLI targetApp c)
    = [(shouldSyncMetaFromCLI targetApp false, Said true);
       (collab (ConvertApp2DatastoreApp targetApp), Converted (Fail e));
       (klog Error "Convert App to data store err %v" [AErr e], Done)]
  ∧ cache (final (syncAppCreatedByCLI targetApp c)) = cache c.
Proof.
  intros Hdue Hconv.
  unfold value, final, trace, syncAppCreatedByCLI, andThen, check,
    bind, call, ret, exec, ev, answer.
  cbn. rewrite Hdue.
  destruct (serve O (ConvertApp2DatastoreApp targetApp) (ds c) (ext c)) as [[r ds'] ext'].
  cbn in Hconv. subst r. cbn. auto.
Qed.

(** X16. The store steps run in the order of the source: the steps of any
    run are a prefix of project (when the bundle has one), targets,
    environment, environment binding, components, policies, workflow,
    application revision, workflow record, application metadata, all taken
    from the bundle the conversion returned; when the last one answered nil
    the steps are the whole list, and there is no step without a
    conversion. *)
Theorem syncAppCreatedByCLI_step_order c targetApp :
  (∀ dsApp,
      In (collab (ConvertApp2DatastoreApp targetApp), Converted (Ok dsApp))
         (trace (syncAppCreatedByCLI targetApp c)) →
      stepsOf (trace (syncAppCreatedByCLI targetApp c)) `prefix_of` pipelineOrder dsApp
      ∧ (In (collab (StoreAppMeta dsApp), Returned None)
            (trace (syncAppCreatedByCLI targetApp c)) →
         stepsOf (trace (syncAppCreatedByCLI targetApp c)) = pipelineOrder dsApp))
  ∧ ((∀ dsApp, ¬ In (collab (ConvertApp2DatastoreApp targetApp), Converted (Ok dsApp))
                    (trace (syncAppCreatedByCLI targetApp c))) →
     stepsOf (trace (syncAppCreatedByCLI targetApp c)) = []).
Proof.
  crank_once.
  all: split; [ intros dsApp H; in_cases H | intros Hnone ].
  all: try (steps_of; reflexivity).
  all: try (exfalso; eapply Hnone; find_in).
  all: steps_of; unfold pipelineOrder;
    match goal with
    | Hp : Project _ = _ |- _ => rewrite Hp
    end; cbn [app].
  all: split; [ eexists; reflexivity | intros H; in_cases H; reflexivity ].
Qed.

(** X17. When the metadata sync is not due, [syncAppCreatedByCLI] converts
    and stores nothing and leaves the cache alone; it resolves the
    canonical key against the store as it is, calls [SyncWorkflowRecord]
    with that key and the record name, and returns the answer. *)
Theorem syncAppCreatedByCLI_idle c targetApp :
  needsSync O c targetApp false = false →
  let found := getApp (v1beta1.Name targetApp) (v1beta1.Namespace targetApp) c in
  let answered :=
    serve O (SyncWorkflowRecord (value found).1.2 (recordNameOf targetApp) targetApp)
      (ds c) (ext c) in
  value (syncAppCreatedByCLI targetApp c) = answered.1.1
  ∧ trace (syncAppCreatedByCLI targetApp c)
    = (shouldSyncMetaFromCLI targetApp false, Said false)
      :: (if decide (recordNameOf targetApp = EmptyString
                     ∧ GetPublishVersion targetApp = EmptyString
                     ∧ v1beta1.Workflow (v1beta1.Status targetApp) = None)
          then [(skipWarning targetApp, Done)] else [])
      ++ trace found
      ++ [(collab (SyncWorkflowRecord (value found).1.2 (recordNameOf targetApp) targetApp),
           Returned answered.1.1)]
  ∧ ds (final (syncAppCreatedByCLI targetApp c)) = answered.1.2
  ∧ cache (final (syncAppCreatedByCLI targetApp c)) = cache c.
Proof.
  intros Hidle found answered. subst found answered.
  unfold recordNameOf, skipWarning.
  unfold value, final, trace, syncAppCreatedByCLI, andThen, check, getAppMetaName,
    bind, call, ret, exec, ev, answer.
  cbn. rewrite Hidle. cbn.
  destruct (getApp (v1beta1.Name targetApp) (v1beta1.Namespace targetApp) c)
    as [[[[found key] err] c'] probes] eqn:Hrun.
  assert (c' = c) as ->.
  { pose proof (getApp_final c (v1beta1.Name targetApp) (v1beta1.Namespace targetApp)) as Hc.
    unfold final in Hc. now rewrite Hrun in Hc. }
  destruct (decide (GetPublishVersion targetApp = EmptyString)) as [Hpv|Hpv];
    [destruct (v1beta1.Workflow (v1beta1.Status targetApp)) as [workflow|] eqn:Hwf|];
    cbn.
  - rewrite Hrun. cbn. destruct (decide _) as [(_ & _ & [=])|_].
    rewrite Replace_first_colon.
    destruct (serve O _ _ _) as [[r ds'] ext']. cbn.
    rewrite app_nil_r. auto.
  - rewrite Hrun. cbn. destruct (decide _) as [_|Hno]; [|exfalso; apply Hno; auto].
    rewrite Hpv.
    destruct (serve O _ _ _) as [[r ds'] ext']. cbn.
    rewrite app_nil_r. auto.
  - rewrite Hrun. cbn. destruct (decide _) as [(_ & Hempty & _)|_]; [contradiction|].
    destruct (serve O _ _ _) as [[r ds'] ext']. cbn.
    rewrite app_nil_r. auto.
Qed.

(** X18. The cache is written only after a full success: a [syncCache] call
    in a run is for the composed key name-namespace of the resource, and
    comes with a conversion that returned a bundle, an application-metadata
    step on that bundle that answered nil, and the bundle's synced revision
    and number of targets as the entry. *)
Theorem syncAppCreatedByCLI_cache_only_after_success c targetApp key rev n :
  In (syncCache key rev n, Done) (trace (syncAppCreatedByCLI targetApp c)) →
  key = formatAppComposedName (v1beta1.Name targetApp) (v1beta1.Namespace targetApp)
  ∧ ∃ dsApp,
      In (collab (ConvertApp2DatastoreApp targetApp), Converted (Ok dsApp))
         (trace (syncAppCreatedByCLI targetApp c))
      ∧ In (collab (StoreAppMeta dsApp), Returned None)
           (trace (syncAppCreatedByCLI targetApp c))
      ∧ rev = revision (entryOf O dsApp) ∧ n = targets (entryOf O dsApp)
      ∧ stepsOf (trace (syncAppCreatedByCLI targetApp c)) = pipelineOrder dsApp.
Proof.
  crank_once.
  all: intros H; in_cases H.
  all: split; [reflexivity|]; eexists; split; [find_in|]; split; [find_in|].
  all: split; [reflexivity|]; split; [reflexivity|].
  all: steps_of; unfold pipelineOrder;
    match goal with
    | Hp : Project _ = _ |- _ => rewrite Hp
    end; reflexivity.
Qed.

(** X19. Whenever [SyncWorkflowRecord] is reached, it is called for the
    resource itself with the record name the resource determines, its
    answer (an error too) is what [syncAppCreatedByCLI] returns, and either
    no store step ran, or the whole pipeline ran and the cache holds the
    entry of the bundle: an error of the final synchronisation undoes
    nothing. *)
Theorem syncAppCreatedByCLI_returns_sync_answer c targetApp appKey recordName app r :
  In (collab (SyncWorkflowRecord appKey recordName app), Returned r)
     (trace (syncAppCreatedByCLI targetApp c)) →
  value (syncAppCreatedByCLI targetApp c) = r
  ∧ app = targetApp
  ∧ recordName = recordNameOf targetApp
  ∧ ((stepsOf (trace (syncAppCreatedByCLI targetApp c)) = []
      ∧ cache (final (syncAppCreatedByCLI targetApp c)) = cache c)
     ∨ ∃ dsApp,
         stepsOf (trace (syncAppCreatedByCLI targetApp c)) = pipelineOrder dsApp
         ∧ cache (final (syncAppCreatedByCLI targetApp c))
             !! formatAppComposedName (v1beta1.Name targetApp) (v1beta1.Namespace targetApp)
           = Some (entryOf O dsApp)).
Proof.
  unfold recordNameOf.
  crank_once.
  all: intros H; in_cases H.
  all: repeat (split; [first [reflexivity | congruence | apply Replace_first_colon]|]).
  all: try (left; split; [steps_of; reflexivity | reflexivity]; fail).
  all: right; eexists; split;
    [ steps_of; unfold pipelineOrder;
      match goal with
      | Hp : Project _ = _ |- _ => rewrite Hp
      end; reflexivity
    | apply lookup_insert_eq ].
Qed.

(** A run of the CLI path removes nothing. *)
Lemma syncAppCreatedByCLI_no_delete c targetApp :
  Forall (λ e, isDelete e.1 = false) (trace (syncAppCreatedByCLI targetApp c)).
Proof. crank_once. all: all_of. Qed.

(** X20. [AddOrUpdate] never removes a record: whatever the origin and the
    answers of the collaborators, its run has no store delete and no
    [DeleteApplication]. *)
Theorem AddOrUpdate_never_deletes c targetApp :
  Forall (λ e, isDelete e.1 = false) (trace (AddOrUpdate targetApp c)).
Proof.
  unfold AddOrUpdate.
  destruct (appFromUX O targetApp) eqn:Hux; [|destruct (appFromCLI O targetApp)].
  - destruct (decide (index_nilable (v1beta1.Annotations targetApp) oam.AnnotationAppName
                      = EmptyString)) as [Hempty|Hkey].
    + unfold syncAppCreatedByUX. destruct (decide _); [|contradiction]. constructor.
    + rewrite (syncAppCreatedByUX_run c targetApp Hkey). unfold trace; cbn [snd].
      destruct (decide (index_nilable (v1beta1.Annotations targetApp)
                          oam.AnnotationPublishVersion = EmptyString));
        destruct ((serve O _ (ds c) (ext c)).1.1); repeat constructor.
  - apply syncAppCreatedByCLI_no_delete.
  - repeat constructor.
Qed.

End PipelineMore.

(** ** The fallback record name *)

Lemma replaceFirstColon_app (s1 s2 : string) :
  colonFree s1 = true →
  replaceFirstColon (s1 +:+ s2) = s1 +:+ replaceFirstColon s2.
Proof.
  induction s1 as [|a s1 IH]; [reflexivity|].
  cbn [colonFree]. intros [Ha Hs1]%andb_prop.
  change (String a s1 +:+ s2) with (String a (s1 +:+ s2)).
  change (String a s1 +:+ replaceFirstColon s2)
    with (String a (s1 +:+ replaceFirstColon s2)).
  cbn [replaceFirstColon]. destruct (Ascii.eqb a ":"%char); [discriminate|].
  now rewrite IH.
Qed.

(** X21. What [strings.Replace(marker, ":", "-", 1)] does to the revision
    marker: a marker without colon is kept as it is, and in
    [name:rest] with a colon-free [name] only the first colon changes, the
    colons of [rest] stay; the length never changes. *)
Theorem Replace_first_colon_only (name rest : string) :
  colonFree name = true →
  gostrings.Replace name ":" "-" 1 = name
  ∧ gostrings.Replace (name +:+ ":" +:+ rest) ":" "-" 1 = name +:+ "-" +:+ rest
  ∧ String.length (gostrings.Replace (name +:+ ":" +:+ rest) ":" "-" 1)
    = String.length (name +:+ ":" +:+ rest).
Proof.
  intros Hfree. rewrite !Replace_first_colon.
  assert (Hname : replaceFirstColon name = name).
  { clear rest. induction name as [|a s IH]; [reflexivity|].
    cbn [colonFree] in Hfree. apply andb_prop in Hfree as [Ha Hs].
    cbn [replaceFirstColon]. destruct (Ascii.eqb a ":"%char); [discriminate|].
    now rewrite IH. }
  assert (Hrest : replaceFirstColon (name +:+ ":" +:+ rest) = name +:+ "-" +:+ rest).
  { now rewrite replaceFirstColon_app. }
  rewrite Hrest. repeat split; [exact Hname|].
  rewrite !length_append. reflexivity.
Qed.

(** ** The resolver and the delete handler together *)

Section Together.

Context {O : Outside}.
Implicit Types (c : State O) (targetApp : v1beta1.Application).

(** The answer of [getApp] depends on the store through its two probes only. *)
Lemma getApp_value_by_store c1 c2 name namespace :
  datastore.Get (ds c1) (keyed (formatAppComposedName name namespace))
    = datastore.Get (ds c2) (keyed (formatAppComposedName name namespace)) →
  datastore.Get (ds c1) (keyed name) = datastore.Get (ds c2) (keyed name) →
  value (getApp name namespace c1) = value (getApp name namespace c2).
Proof.
  intros Hcomposed Hbare.
  destruct (datastore.Get (ds c1) (keyed (formatAppComposedName name namespace)))
    as [a|e1] eqn:E1; symmetry in Hcomposed.
  - now rewrite (getApp_composed _ _ _ _ E1), (getApp_composed _ _ _ _ Hcomposed).
  - destruct (datastore.Get (ds c1) (keyed name)) as [a|e2] eqn:E2; symmetry in Hbare.
    + rewrite (getApp_bare _ _ _ _ _ E1 E2), (getApp_bare _ _ _ _ _ Hcomposed Hbare).
      now destruct (decide _).
    + now rewrite (getApp_neither _ _ _ _ _ E1 E2), (getApp_neither _ _ _ _ _ Hcomposed Hbare).
Qed.

(** A probe of one key does not see the removal of the row of another. *)
Lemma Get_after_delete (store : datastore.DataStore) (gone key : string) :
  key ≠ gone →
  datastore.Get (withRows store (delete gone (datastore.rows store))) (keyed key)
  = datastore.Get store (keyed key).
Proof.
  intros Hne. unfold datastore.Get, withRows. cbn.
  now rewrite lookup_delete_ne by congruence.
Qed.

(** The store after [DeleteApp] without application service: as before, or
    less the composed record, or less the bare record of the namespace. *)
Lemma DeleteApp_store c targetApp :
  applicationService c = false →
  let name := v1beta1.Name targetApp in
  let namespace := v1beta1.Namespace targetApp in
  ds (final (DeleteApp targetApp c)) = ds c
  ∨ ds (final (DeleteApp targetApp c))
    = withRows (ds c) (delete (formatAppComposedName name namespace) (datastore.rows (ds c)))
  ∨ (∃ row, datastore.rows (ds c) !! name = Some row
            ∧ datastore.getFails (ds c) name = None
            ∧ index (model.Labels row) model.LabelSyncNamespace = namespace
            ∧ ds (final (DeleteApp targetApp c))
              = withRows (ds c) (delete name (datastore.rows (ds c)))).
Proof.
  intros Hsvc name namespace. subst name namespace.
  destruct (appFromCLI O targetApp) eqn:Hcli;
    [| destruct (needsSync O c targetApp true) eqn:Hsync].
  3: { left. now rewrite (DeleteApp_gate_closed c targetApp Hcli Hsync). }
  all: rewrite DeleteApp_acting by auto;
    destruct (getApp_cases c (v1beta1.Name targetApp) (v1beta1.Namespace targetApp))
      as [(row' & E & F & ->) | [(e1 & row' & E1 & E2 & F & Hns & ->)
         | [(e1 & row' & E1 & E2 & F & Hns & ->) | (e1 & e2 & E1 & E2 & ->)]]];
    unfold value, trace, final; cbn [fst snd]; rewrite ?Hsvc;
    unfold datastore.Delete, withStore; cbn [model.Name keyed].
  all: try (left; reflexivity).
  all: destruct (datastore.deleteFails (ds c) _); try (left; reflexivity).
  all: rewrite ?E, ?E2; cbn.
  all: try (right; left; reflexivity).
  all: right; right; exists row'; auto.
Qed.

(** X22. Deleting the application of one namespace does not change what a
    same-named application of another namespace resolves to: when [getApp]
    finds a record for (name, other) before [DeleteApp] of (name,
    namespace), with no application service, it returns the very same
    answer afterwards. *)
Theorem DeleteApp_keeps_other_namespace c targetApp other :
  applicationService c = false →
  other ≠ v1beta1.Namespace targetApp →
  (value (getApp (v1beta1.Name targetApp) other c)).1.1 ≠ None →
  value (getApp (v1beta1.Name targetApp) other (final (DeleteApp targetApp c)))
  = value (getApp (v1beta1.Name targetApp) other c).
Proof.
  intros Hsvc Hother Hfound.
  destruct (DeleteApp_store c targetApp Hsvc)
    as [Hsame | [Hless | (row & E2 & F2 & Hns & Hless)]].
  - apply getApp_value_by_store; now rewrite Hsame.
  - apply getApp_value_by_store; rewrite Hless; apply Get_after_delete.
    + intros Heq. apply composed_inj_namespace in Heq. now apply Hother.
    + intros Heq. symmetry in Heq. now apply composed_not_bare in Heq.
  - destruct (getApp_cases c (v1beta1.Name targetApp) other)
      as [(row' & G & G' & Hrun) | [(e1 & row' & G1 & G2 & G' & Hns' & Hrun)
         | [(e1 & row' & G1 & G2 & G' & Hns' & Hrun) | (e1 & e2 & G1 & G2 & Hrun)]]];
      rewrite Hrun in Hfound; unfold value in Hfound; cbn [fst snd] in Hfound;
      try contradiction.
    + rewrite Hrun. unfold value; cbn [fst snd].
      assert (Hread : datastore.Get (ds (final (DeleteApp targetApp c)))
                        (keyed (formatAppComposedName (v1beta1.Name targetApp) other))
                      = Ok (fetched (formatAppComposedName (v1beta1.Name targetApp) other) row')).
      { rewrite Hless, Get_after_delete.
        - now apply Get_found.
        - apply composed_not_bare. }
      now rewrite (getApp_composed _ _ _ _ Hread).
    + exfalso. apply Hother. congruence.
Qed.

(** X23. Without application service, [DeleteApp] of a CLI-origin resource
    returns nil exactly when the resolver finds a record and the delete of
    the canonical key does not fail; when a record is found, the result is
    the delete's answer, the record under the canonical key is gone once the
    delete went through, and the store is as it was when the delete failed;
    when none is found, the result is the resolver's error and the store is
    as it was. *)
Theorem DeleteApp_succeeds_iff_found c targetApp :
  appFromCLI O targetApp = true →
  applicationService c = false →
  let found := value (getApp (v1beta1.Name targetApp) (v1beta1.Namespace targetApp) c) in
  (value (DeleteApp targetApp c) = None
   ↔ found.1.1 ≠ None ∧ datastore.deleteFails (ds c) found.1.2 = None)
  ∧ (found.1.1 ≠ None →
     is_Some (datastore.rows (ds c) !! found.1.2)
     ∧ value (DeleteApp targetApp c) = datastore.deleteFails (ds c) found.1.2
     ∧ (datastore.deleteFails (ds c) found.1.2 = None →
        datastore.rows (ds (final (DeleteApp targetApp c)))
        = delete found.1.2 (datastore.rows (ds c))
        ∧ datastore.rows (ds (final (DeleteApp targetApp c))) !! found.1.2 = None)
     ∧ (datastore.deleteFails (ds c) found.1.2 ≠ None →
        ds (final (DeleteApp targetApp c)) = ds c))
  ∧ (found.1.1 = None →
     value (DeleteApp targetApp c) = found.2
     ∧ ds (final (DeleteApp targetApp c)) = ds c).
Proof.
  intros Hcli Hsvc found. subst found.
  rewrite DeleteApp_acting by auto. rewrite Hcli.
  destruct (getApp_cases c (v1beta1.Name targetApp) (v1beta1.Namespace targetApp))
    as [(row' & E & F & ->) | [(e1 & row' & E1 & E2 & F & Hns & ->)
       | [(e1 & row' & E1 & E2 & F & Hns & ->) | (e1 & e2 & E1 & E2 & ->)]]];
    unfold value, trace, final; cbn [fst snd]; rewrite ?Hsvc;
    unfold datastore.Delete, withStore; cbn [model.Name keyed].
  3, 4: cbn; (split; [split; [discriminate | intros [Hn _]; now contradiction Hn]|]);
    (split; [intros Hn; now contradiction Hn | auto]).
  all: rewrite ?E, ?E2;
    destruct (datastore.deleteFails (ds c) _) as [e|] eqn:D; cbn.
  all: split; [split; [try discriminate; auto | intros [_ Hd]; auto; discriminate]|].
  all: split; [|intros Hn; discriminate].
  all: intros _; split; [eauto|]; split; [reflexivity|].
  all: split; intros Hd;
    first [discriminate | reflexivity | now contradiction Hd
          | split; [reflexivity | apply lookup_delete_eq]].
Qed.

End Together.

(** ** The further theorems at work on concrete runs *)

Lemma getApp_composed_wins_witness :
  value (getApp (O := Fixture.cliIdle) "X" "ns-b" Fixture.both)
  = (Some (fetched "X-ns-b" (Fixture.rowOf "X-ns-b" "ns-b")), "X-ns-b", None).
Proof.
  exact (proj1 (getApp_composed_wins (O := Fixture.cliIdle) Fixture.both "X" "ns-b"
                  (Fixture.rowOf "X-ns-b" "ns-b") eq_refl eq_refl)).
Defined.

Lemma getApp_own_bare_name_witness :
  value (getApp (O := Fixture.cliIdle) "web" "prod" Fixture.flaky)
  = (Some (fetched "web" (Fixture.rowOf "web" "prod")), "web", None).
Proof.
  exact (f_equal value
           (getApp_own_bare_name (O := Fixture.cliIdle) Fixture.flaky "web" "prod"
              (Errorf "store: timeout") (Fixture.rowOf "web" "prod")
              eq_refl eq_refl eq_refl eq_refl)).
Defined.

Lemma getApp_resolves_what_was_claimed_witness :
  value (getApp (O := Fixture.cliIdle) "web" "prod"
           (withStore Fixture.empty
              (withRows (ds Fixture.empty) (<["web" := Fixture.rowOf "web" "prod"]> ∅))))
  = (Some (fetched "web" (Fixture.rowOf "web" "prod")), "web", None).
Proof.
  exact (getApp_resolves_what_was_claimed (O := Fixture.cliIdle) Fixture.empty "web" "prod"
           (Fixture.rowOf "web" "prod") eq_refl eq_refl eq_refl eq_refl).
Defined.

Lemma getApp_namespaces_do_not_share_witness :
  (value (getApp (O := Fixture.cliIdle) "X" "ns-a" Fixture.both)).1.2
  ≠ (value (getApp (O := Fixture.cliIdle) "X" "ns-b" Fixture.both)).1.2.
Proof.
  refine (proj1 (getApp_namespaces_do_not_share (O := Fixture.cliIdle) Fixture.both
                   "X" "ns-a" "ns-b"
                   (fetched "X" (Fixture.rowOf "X" "ns-a"))
                   (fetched "X-ns-b" (Fixture.rowOf "X-ns-b" "ns-b"))
                   _ eq_refl eq_refl)).
  discriminate.
Defined.

Lemma getApp_hyphen_collision_witness :
  value (getApp (O := Fixture.cliIdle) "a-b" "c" Fixture.hyphen)
  = value (getApp (O := Fixture.cliIdle) "a" "b-c" Fixture.hyphen).
Proof.
  exact (proj1 (proj2 (proj2 (getApp_hyphen_collision (O := Fixture.cliIdle)
                                Fixture.hyphen "a" "b" "c" (Fixture.rowOf "a-b-c" "c")))
                 eq_refl eq_refl)).
Defined.

Lemma DeleteApp_ignores_other_origins_witness :
  value (DeleteApp (O := Fixture.stranger) Fixture.web Fixture.shared) = None
  ∧ ds (final (DeleteApp (O := Fixture.stranger) Fixture.web Fixture.shared))
    = ds Fixture.shared.
Proof.
  destruct (DeleteApp_ignores_other_origins (O := Fixture.stranger)
              Fixture.shared Fixture.web eq_refl eq_refl) as (Hvalue & _ & Hstore).
  split; [exact Hvalue | exact Hstore].
Defined.

Lemma DeleteApp_removes_only_its_own_witness :
  datastore.rows (ds (final (DeleteApp (O := Fixture.cliIdle) Fixture.web Fixture.shared)))
    !! "web"
  = Some (Fixture.rowOf "web" "staging").
Proof.
  destruct (proj1 (DeleteApp_removes_only_its_own (O := Fixture.cliIdle)
                     Fixture.shared Fixture.web eq_refl)
              "web" (Fixture.rowOf "web" "staging") eq_refl)
    as [Hkept | [(Hcomposed & _) | (_ & Hlabel & _)]].
  - exact Hkept.
  - discriminate Hcomposed.
  - discriminate Hlabel.
Defined.

Lemma DeleteApp_surfaces_resolver_error_witness :
  value (DeleteApp (O := Fixture.cliIdle) Fixture.web Fixture.empty)
  = Some ErrRecordNotExist.
Proof.
  exact (proj1 (proj2 (proj2 (DeleteApp_surfaces_resolver_error (O := Fixture.cliIdle)
                                Fixture.empty Fixture.web eq_refl eq_refl)))
           eq_refl eq_refl).
Defined.

Lemma DeleteApp_delegates_to_service_witness :
  value (DeleteApp (O := Fixture.cliIdle) Fixture.web Fixture.sharedWired) = None
  ∧ ds (final (DeleteApp (O := Fixture.cliIdle) Fixture.web Fixture.sharedWired))
    = ds Fixture.sharedWired.
Proof.
  destruct (DeleteApp_delegates_to_service (O := Fixture.cliIdle)
              Fixture.sharedWired Fixture.web
              (fetched "web-prod" (Fixture.rowOf "web-prod" "prod"))
              eq_refl eq_refl eq_refl) as (Hvalue & _ & Hstore & _).
  split; [exact Hvalue | exact Hstore].
Defined.

Lemma DeleteApp_removes_own_bare_record_witness :
  value (DeleteApp (O := Fixture.cliIdle) Fixture.web Fixture.flaky) = None
  ∧ datastore.rows (ds (final (DeleteApp (O := Fixture.cliIdle) Fixture.web Fixture.flaky)))
    = delete "web" (datastore.rows (ds Fixture.flaky)).
Proof.
  destruct (DeleteApp_removes_own_bare_record (O := Fixture.cliIdle)
              Fixture.flaky Fixture.web (Errorf "store: timeout")
              (Fixture.rowOf "web" "prod")
              eq_refl eq_refl eq_refl eq_refl eq_refl eq_refl eq_refl)
    as (Hvalue & Hstore & _).
  split; [exact Hvalue | exact Hstore].
Defined.

Lemma syncAppCreatedByUX_forwards_witness :
  value (syncAppCreatedByUX (O := Fixture.console) Fixture.consoleApp Fixture.empty) = None
  ∧ trace (syncAppCreatedByUX (O := Fixture.console) Fixture.consoleApp Fixture.empty)
    = [(collab (SyncWorkflowRecord "web" "v2" Fixture.consoleApp), Returned None)].
Proof.
  destruct (syncAppCreatedByUX_forwards (O := Fixture.console)
              Fixture.empty Fixture.consoleApp) as (Hvalue & Htrace & _).
  - vm_compute. discriminate.
  - split; [exact Hvalue | exact Htrace].
Defined.

Lemma AddOrUpdate_console_comes_first_witness :
  Forall (λ e, isKlog e.1 || isSyncWorkflowRecord e.1 = true)
    (trace (AddOrUpdate (O := Fixture.console) Fixture.consoleApp Fixture.empty))
  ∧ cache (final (AddOrUpdate (O := Fixture.console) Fixture.consoleApp Fixture.empty)) = ∅.
Proof.
  destruct (AddOrUpdate_console_comes_first (O := Fixture.console)
              Fixture.empty Fixture.consoleApp eq_refl) as (Hcalls & _ & Hcache).
  split; [exact Hcalls | exact Hcache].
Defined.

Lemma syncAppCreatedByCLI_fails_fast_at_any_step_witness :
  value (syncAppCreatedByCLI (O := Fixture.cliBroken) Fixture.web Fixture.empty)
  = Some (Errorf "components: store unavailable").
Proof.
  refine (proj1 (syncAppCreatedByCLI_fails_fast_at_any_step (O := Fixture.cliBroken)
                   Fixture.empty Fixture.web
                   (collab (StoreComponents "web" [ {| model.ComponentName := "server" |} ]))
                   (Errorf "components: store unavailable") eq_refl _)).
  vm_compute. find_in.
Defined.

Lemma syncAppCreatedByCLI_conversion_failure_witness :
  value (syncAppCreatedByCLI (O := Fixture.cliUnconvertible) Fixture.web Fixture.empty)
  = Some (Errorf "convert: bad spec")
  ∧ trace (syncAppCreatedByCLI (O := Fixture.cliUnconvertible) Fixture.web Fixture.empty)
    = [(shouldSyncMetaFromCLI Fixture.web false, Said true);
       (collab (ConvertApp2DatastoreApp Fixture.web),
        Converted (Fail (Errorf "convert: bad spec")));
       (klog Error "Convert App to data store err %v" [AErr (Errorf "convert: bad spec")],
        Done)].
Proof.
  destruct (syncAppCreatedByCLI_conversion_failure (O := Fixture.cliUnconvertible)
              Fixture.empty Fixture.web (Errorf "convert: bad spec") eq_refl eq_refl)
    as (Hvalue & Htrace & _).
  split; [exact Hvalue | exact Htrace].
Defined.

Lemma syncAppCreatedByCLI_step_order_witness :
  stepsOf (trace (syncAppCreatedByCLI (O := Fixture.cliBroken) Fixture.web Fixture.empty))
    `prefix_of` pipelineOrder Fixture.bundle.
Proof.
  refine (proj1 (proj1 (syncAppCreatedByCLI_step_order (O := Fixture.cliBroken)
                          Fixture.empty Fixture.web) Fixture.bundle _)).
  vm_compute. find_in.
Defined.

Lemma syncAppCreatedByCLI_idle_witness :
  value (syncAppCreatedByCLI (O := Fixture.cliIdle) Fixture.web Fixture.shared) = None
  ∧ trace (syncAppCreatedByCLI (O := Fixture.cliIdle) Fixture.web Fixture.shared)
    = [(shouldSyncMetaFromCLI Fixture.web false, Said false);
       (ds_Get (keyed "web-prod"),
        Got (Ok (fetched "web-prod" (Fixture.rowOf "web-prod" "prod"))));
       (collab (SyncWorkflowRecord "web-prod" "web-v1-8f2c:1" Fixture.web), Returned None)].
Proof.
  destruct (syncAppCreatedByCLI_idle (O := Fixture.cliIdle)
              Fixture.shared Fixture.web eq_refl) as (Hvalue & Htrace & _).
  split; [exact Hvalue | exact Htrace].
Defined.

Lemma syncAppCreatedByCLI_cache_only_after_success_witness :
  ∃ dsApp,
    In (collab (StoreAppMeta dsApp), Returned None)
       (trace (syncAppCreatedByCLI (O := Fixture.cliDue) Fixture.web Fixture.empty))
    ∧ "web-v1" = revision (entryOf Fixture.cliDue dsApp)
    ∧ 2%Z = targets (entryOf Fixture.cliDue dsApp).
Proof.
  destruct (syncAppCreatedByCLI_cache_only_after_success (O := Fixture.cliDue)
              Fixture.empty Fixture.web "web-prod" "web-v1" 2)
    as (_ & dsApp & _ & Hmeta & Hrev & Hn & _).
  - vm_compute. find_in.
  - exists dsApp. split; [exact Hmeta | split; [exact Hrev | exact Hn]].
Defined.

Lemma syncAppCreatedByCLI_returns_sync_answer_witness :
  value (syncAppCreatedByCLI (O := Fixture.cliDue) Fixture.web Fixture.empty) = None
  ∧ "web-v1-8f2c:1" = recordNameOf Fixture.web.
Proof.
  destruct (syncAppCreatedByCLI_returns_sync_answer (O := Fixture.cliDue)
              Fixture.empty Fixture.web "web" "web-v1-8f2c:1" Fixture.web None)
    as (Hvalue & _ & Hname & _).
  - vm_compute. find_in.
  - split; [exact Hvalue | exact Hname].
Defined.

Lemma Replace_first_colon_only_witness :
  gostrings.Replace "web-v1:8f2c:1" ":" "-" 1 = "web-v1-8f2c:1".
Proof.
  exact (proj1 (proj2 (Replace_first_colon_only "web-v1" "8f2c:1" eq_refl))).
Defined.

Lemma DeleteApp_keeps_other_namespace_witness :
  value (getApp (O := Fixture.cliIdle) "web" "staging"
           (final (DeleteApp (O := Fixture.cliIdle) Fixture.web Fixture.shared)))
  = value (getApp (O := Fixture.cliIdle) "web" "staging" Fixture.shared).
Proof.
  refine (DeleteApp_keeps_other_namespace (O := Fixture.cliIdle)
            Fixture.shared Fixture.web "staging" eq_refl _ _).
  - discriminate.
  - vm_compute. discriminate.
Defined.

Lemma DeleteApp_succeeds_iff_found_witness :
  datastore.rows (ds (final (DeleteApp (O := Fixture.cliIdle) Fixture.web Fixture.shared)))
    !! "web-prod"
  = None.
Proof.
  refine (proj2 (proj1 (proj2 (proj2 (proj1 (proj2
            (DeleteApp_succeeds_iff_found (O := Fixture.cliIdle)
               Fixture.shared Fixture.web eq_refl eq_refl)) _))) eq_refl)).
  vm_compute. discriminate.
Defined.
